(** * Group registry component (access-control/group-registry)

    A shallow embedding of [GroupsRegistryComponent]: the search controller,
    the per-page assembly of row view-models, and the deletion path.

    The component is event driven. Its methods ([search], [onPageChange],
    [deleteGroup], ...) run to completion; the answers of the collaborators
    (group search, per-row lookups, deletion, endpoint lookup) arrive later as
    separate events. The state carries the component's fields, the
    subscription objects it created (by reference), and the log of the calls
    it made on its collaborators. *)

From stdpp Require Import base list strings.

Local Open Scope string_scope.
Local Open Scope list_scope.

(** ** Observables

    An observable is read through the notifications it has delivered so
    far, oldest first. A list that ends without [Error] or [Complete] is a
    stream that is still open; when it delivers more, that is a later,
    longer list. *)

Inductive Notification (A : Type) : Type :=
  | Next (a : A)
  | Error
  | Complete.
Arguments Next {A} a.
Arguments Error {A}.
Arguments Complete {A}.

Definition Observable (A : Type) : Type := list (Notification A).

(** What a subscriber gets from an observable: a value, nothing, or an error. *)
Inductive Outcome (A : Type) : Type :=
  | Emits (a : A)
  | Silent
  | Fails.
Arguments Emits {A} a.
Arguments Silent {A}.
Arguments Fails {A}.

(** The first notification of a stream. *)
Definition settle {A} (o : Observable A) : Outcome A :=
  match o with
  | Next a :: _ => Emits a
  | Error :: _ => Fails
  | Complete :: _ => Silent
  | [] => Silent
  end.

(** Where a stream stands after what it has delivered: its latest value,
    no value yet, or an error. *)
Fixpoint latestFrom {A} (last : Outcome A) (o : Observable A) : Outcome A :=
  match o with
  | [] => last
  | Next a :: o' => latestFrom (Emits a) o'
  | Error :: _ => Fails
  | Complete :: _ => last
  end.

Definition latest {A} (o : Observable A) : Outcome A := latestFrom Silent o.

(** Whether a stream has ended, by [Complete] or by [Error]. *)
Definition ended {A} (o : Observable A) : bool :=
  existsb (fun n => match n with Next _ => false | _ => true end) o.

Definition deliver {A} (r : Outcome A) : Observable A :=
  match r with
  | Emits a => [Next a]
  | Silent => []
  | Fails => [Error]
  end.

(** The piped operators, under their RxJS names. *)
Module Rx.

(** [filter(p)]: values that fail [p] are dropped; the end of the source is
    passed on. *)
Fixpoint filter {A} (p : A -> bool) (o : Observable A) : Observable A :=
  match o with
  | [] => []
  | Next a :: o' => if p a then Next a :: filter p o' else filter p o'
  | Error :: _ => [Error]
  | Complete :: _ => [Complete]
  end.

(** [take(n)]: completes after the n-th value. *)
Fixpoint take {A} (n : nat) (o : Observable A) : Observable A :=
  match n with
  | 0 => [Complete]
  | S n' =>
      match o with
      | [] => []
      | Next a :: o' => Next a :: take n' o'
      | Error :: _ => [Error]
      | Complete :: _ => [Complete]
      end
  end.

(** [map(f)]. *)
Fixpoint map {A B} (f : A -> B) (o : Observable A) : Observable B :=
  match o with
  | [] => []
  | Next a :: o' => Next (f a) :: map f o'
  | Error :: _ => [Error]
  | Complete :: _ => [Complete]
  end.

(** [catchError(h)]: an error of the source is replaced by the observable
    [h] returns. *)
Fixpoint catchError {A} (h : unit -> Observable A) (o : Observable A)
  : Observable A :=
  match o with
  | [] => []
  | Next a :: o' => Next a :: catchError h o'
  | Error :: _ => h tt
  | Complete :: _ => [Complete]
  end.

End Rx.

(** [of(a)]. *)
Definition observableOf {A} (a : A) : Observable A := [Next a; Complete].

(** The join behind [combineLatest(array)]. The inputs are subscribed in
    array order. An input that is [undefined] (here [None]) is no stream:
    subscribing to it raises a TypeError ("You provided 'undefined' where a
    stream was expected"), the inputs after it are not subscribed, and the
    combined stream never delivers a value. RxJS 6 raises it after the
    array of inputs has completed and only logs it; were it delivered as an
    error instead, the combined stream would deliver no value either.

    [combineLatest] delivers whenever an input delivers, once every input
    has delivered a value, and each delivery holds the latest value of
    every input. What the inputs have delivered so far decides the latest
    delivery of the combined stream, and that is what the join gives: the
    latest values, nothing while an input has no value, an error as soon
    as a subscribed input has one. A later delivery of an input is a later,
    longer input, and the join of it is the next delivery. *)
Fixpoint joinLatest {A} (inputs : list (option (Observable A)))
  : Outcome (list A) :=
  match inputs with
  | [] => Emits []
  | None :: _ => Silent
  | Some o :: rest =>
      match latest o with
      | Fails => Fails
      | Silent => match joinLatest rest with Fails => Fails | _ => Silent end
      | Emits a =>
          match joinLatest rest with
          | Emits l => Emits (a :: l)
          | Silent => Silent
          | Fails => Fails
          end
      end
  end.

(** [combineLatest(array)], as its latest delivery; an empty array
    completes without a value. *)
Definition observableCombineLatest {A} (inputs : list (option (Observable A)))
  : Observable (list A) :=
  match inputs with
  | [] => [Complete]
  | _ => deliver (joinLatest inputs)
  end.

(** [combineLatest([a, b, c, d])] on four streams of different types, as
    its latest delivery. *)
Definition observableCombineLatest4 {A B C D}
    (a : Observable A) (b : Observable B) (c : Observable C) (d : Observable D)
  : Observable (A * B * C * D) :=
  match latest a, latest b, latest c, latest d with
  | Emits x, Emits y, Emits z, Emits u => [Next (x, y, z, u)]
  | Fails, _, _, _ | _, Fails, _, _ | _, _, Fails, _ | _, _, _, Fails => [Error]
  | _, _, _, _ => []
  end.

(** ** Data model *)

(** [hasValue] of shared/empty.util: neither [null] nor [undefined]. *)
Definition hasValue {A} (x : option A) : bool :=
  match x with Some _ => true | None => false end.

(** Modelled from the spec: [PageInfo] is declared in
    core/shared/page-info.model, which is not among the sources; the
    pagination metadata of a fetched page. *)
Record PageInfo : Type := {
  elementsPerPage : nat;
  totalElements : nat;
  totalPages : nat;
  pageNumber : nat
}.

(** Modelled from the spec: [PaginatedList] and [buildPaginatedList] are
    declared in core/data/paginated-list.model, which is not among the
    sources; a page of elements with its pagination metadata. *)
Record PaginatedList (A : Type) : Type := buildPaginatedList {
  pageInfo : PageInfo;
  page : list A
}.
Arguments buildPaginatedList {A} pageInfo page.
Arguments pageInfo {A} p.
Arguments page {A} p.

(** Modelled from the spec: [RemoteData] is declared in
    core/data/remote-data, which is not among the sources. A response is
    pending, or has reached its terminal outcome: success or failure. *)
Inductive RequestState : Type := ResponsePending | Success | Failure.

Record RemoteData (A : Type) : Type := {
  state : RequestState;
  errorMessage : option string;
  payload : option A
}.
Arguments state {A} r.
Arguments errorMessage {A} r.
Arguments payload {A} r.

Definition hasSucceeded {A} (rd : RemoteData A) : bool :=
  match state rd with Success => true | _ => false end.

Definition hasCompleted {A} (rd : RemoteData A) : bool :=
  match state rd with ResponsePending => false | _ => true end.

(** The [_links] of a group, each reduced to its [href]. *)
Record GroupLinks : Type := {
  subgroups_href : string;
  epersons_href : string;
  object_href : string
}.

Record Group : Type := {
  id : option string;
  name : string;
  self : string;
  _links : GroupLinks
}.

Record EPerson : Type := { eperson_id : string }.

Record DSpaceObject : Type := { dso_id : string }.

(** [GroupDtoModel]: one row of the rendered page. *)
Record GroupDtoModel : Type := {
  ableToDelete : bool;
  group : Group;
  subgroups : option (PaginatedList Group);
  epersons : option (PaginatedList EPerson)
}.

Inductive FeatureID : Type := CanDelete.

(** ** Operators on remote data

    Modelled from the spec: the three operators below are declared in
    core/shared/operators, which is not among the sources. Each keeps the
    responses its name says: the page assembly runs "on success" of the
    gateway, on every succeeded response (its payload); a deletion awaits
    "the single terminal outcome (success or failure)", the first completed
    response; a row lookup takes the first succeeded response. A response
    that is not kept is dropped: it is a value of the stream, not an error
    of it. *)

Definition getAllSucceededRemoteDataPayload {A}
    (o : Observable (RemoteData A)) : Observable (option A) :=
  Rx.map payload (Rx.filter hasSucceeded o).

Definition getFirstCompletedRemoteData {A}
    (o : Observable (RemoteData A)) : Observable (RemoteData A) :=
  Rx.take 1 (Rx.filter hasCompleted o).

Definition getFirstSucceededRemoteData {A}
    (o : Observable (RemoteData A)) : Observable (RemoteData A) :=
  Rx.take 1 (Rx.filter hasSucceeded o).

(** ** Collaborators

    What the lookup services answer to the calls of one page assembly. *)
Record Lookups : Type := {
  isAuthorized : FeatureID -> option string -> Observable bool;
  findByHref : string -> Observable (RemoteData DSpaceObject);
  findSubgroupsByHref : string -> Observable (RemoteData (PaginatedList Group));
  findMembersByHref : string -> Observable (RemoteData (PaginatedList EPerson))
}.

Inductive RouterLink : Type := getGroupRegistryRouterLink.

(** [translateService.get(key, params)]. *)
Record Translation : Type := translate {
  key : string;
  params : list (string * option string)
}.

(** The calls the component makes on its collaborators, and the error of a
    subscription that has no error handler. *)
Inductive Call : Type :=
  | NavigateByUrl (link : RouterLink)
  | SearchGroups (query : string) (page size : nat)
  | IsAuthorized (feature : FeatureID) (url : option string)
  | FindByHref (href : string)
  | FindSubgroupsByHref (href : string)
  | FindMembersByHref (href : string)
  | DeleteById (id : string)
  | NotifySuccess (message : Translation)
  | NotifyError (title content : Translation)
  | GetBrowseEndpoint
  | SetStaleByHrefSubstring (href : string)
  | PatchSearchForm (query : string)
  | UncaughtError.

(** ** Page assembly: the function given to [switchMap] in [search] *)

Definition messagePrefix : string := "admin.access-control.groups.".

(** [ids.includes(x)] on an array of strings; [undefined] is in none. *)
Definition includes (ids : list string) (x : option string) : bool :=
  match x with
  | Some i => existsb (String.eqb i) ids
  | None => false
  end.

Section Assembly.
Variable w : Lookups.

Definition getMembers (g : Group) : Observable (RemoteData (PaginatedList EPerson)) :=
  getFirstSucceededRemoteData (findMembersByHref w (epersons_href (_links g))).

Definition getSubgroups (g : Group) : Observable (RemoteData (PaginatedList Group)) :=
  getFirstSucceededRemoteData (findSubgroupsByHref w (subgroups_href (_links g))).

Definition hasLinkedDSO (g : Group) : Observable bool :=
  Rx.catchError (fun _ => observableOf false)
    (Rx.map (fun rd => hasValue (Some rd) && hasValue (payload rd))
       (getFirstSucceededRemoteData (findByHref w (object_href (_links g))))).

(** The row of one group that is not tombstoned. *)
Definition enrich (g : Group) : Observable GroupDtoModel :=
  Rx.map
    (fun '(isAuthorized, hasLinkedDSO, subgroups, members) =>
       {| ableToDelete := isAuthorized && negb hasLinkedDSO;
          group := g;
          subgroups := payload subgroups;
          epersons := payload members |})
    (observableCombineLatest4
       (isAuthorized w CanDelete (if hasValue (Some g) then Some (self g) else None))
       (hasLinkedDSO g)
       (getSubgroups g)
       (getMembers g)).

(** The array handed to the outer [combineLatest]: the callback of
    [groups.page.map] returns a row stream for a group that is not in
    [deletedGroupsIds] and returns nothing ([undefined]) for one that is. *)
Definition rowStreams (deletedGroupsIds : list string) (groups : PaginatedList Group)
  : list (option (Observable GroupDtoModel)) :=
  List.map
    (fun g => if negb (includes deletedGroupsIds (id g)) then Some (enrich g) else None)
    (page groups).

Definition assemble (deletedGroupsIds : list string) (groups : PaginatedList Group)
  : Observable (PaginatedList GroupDtoModel) :=
  if Nat.eqb (List.length (page groups)) 0
  then observableOf (buildPaginatedList (pageInfo groups) [])
  else Rx.map (fun dtos => buildPaginatedList (pageInfo groups) dtos)
         (observableCombineLatest (rowStreams deletedGroupsIds groups)).

End Assembly.

(** The lookups one row issues, in call order. *)
Definition rowCalls (g : Group) : list Call :=
  [ IsAuthorized CanDelete (if hasValue (Some g) then Some (self g) else None);
    FindByHref (object_href (_links g));
    FindSubgroupsByHref (subgroups_href (_links g));
    FindMembersByHref (epersons_href (_links g)) ].

(** The lookups one page assembly issues. *)
Definition assembleCalls (deletedGroupsIds : list string) (groups : PaginatedList Group)
  : list Call :=
  if Nat.eqb (List.length (page groups)) 0 then []
  else flat_map
         (fun g => if negb (includes deletedGroupsIds (id g)) then rowCalls g else [])
         (page groups).

(** ** Component state *)

Record PaginationComponentOptions : Type := {
  paginationId : string;
  pageSize : nat;
  currentPage : nat
}.

(** The subscription object [subscribe] returns in [search]. [request] is
    what [searchGroups] was called with. [inner] is the page [switchMap] is
    assembling, with [deletedGroupsIds] as read when the page arrived. *)
Record Subscription : Type := {
  closed : bool;
  request : string * nat * nat;
  inner : option (list string * PaginatedList Group)
}.

(** The fields of the component, then what lives outside it: the
    subscription objects (a reference is an index), the pending deletions
    and endpoint lookups (with a flag: answered), and the calls made. *)
Record State : Type := {
  config : PaginationComponentOptions;
  groupsDto : option (PaginatedList GroupDtoModel);
  deletedGroupsIds : list string;
  pageInfoState : option PageInfo;
  searching : bool;
  currentSearchQuery : string;
  searchSub : option nat;
  subs : list nat;
  subscriptions : list Subscription;
  deletions : list (GroupDtoModel * bool);
  resets : list bool;
  calls : list Call
}.

Definition set_currentPage (n : nat) (st : State) : State :=
  {| config := {| paginationId := paginationId (config st);
                  pageSize := pageSize (config st);
                  currentPage := n |};
     groupsDto := groupsDto st; deletedGroupsIds := deletedGroupsIds st;
     pageInfoState := pageInfoState st; searching := searching st;
     currentSearchQuery := currentSearchQuery st; searchSub := searchSub st;
     subs := subs st; subscriptions := subscriptions st;
     deletions := deletions st; resets := resets st; calls := calls st |}.

Definition publish (value : PaginatedList GroupDtoModel) (st : State) : State :=
  {| config := config st;
     groupsDto := Some value; deletedGroupsIds := deletedGroupsIds st;
     pageInfoState := Some (pageInfo value); searching := false;
     currentSearchQuery := currentSearchQuery st; searchSub := searchSub st;
     subs := subs st; subscriptions := subscriptions st;
     deletions := deletions st; resets := resets st; calls := calls st |}.

Definition set_deletedGroupsIds (ids : list string) (st : State) : State :=
  {| config := config st;
     groupsDto := groupsDto st; deletedGroupsIds := ids;
     pageInfoState := pageInfoState st; searching := searching st;
     currentSearchQuery := currentSearchQuery st; searchSub := searchSub st;
     subs := subs st; subscriptions := subscriptions st;
     deletions := deletions st; resets := resets st; calls := calls st |}.

Definition set_searching (b : bool) (st : State) : State :=
  {| config := config st;
     groupsDto := groupsDto st; deletedGroupsIds := deletedGroupsIds st;
     pageInfoState := pageInfoState st; searching := b;
     currentSearchQuery := currentSearchQuery st; searchSub := searchSub st;
     subs := subs st; subscriptions := subscriptions st;
     deletions := deletions st; resets := resets st; calls := calls st |}.

Definition set_currentSearchQuery (q : string) (st : State) : State :=
  {| config := config st;
     groupsDto := groupsDto st; deletedGroupsIds := deletedGroupsIds st;
     pageInfoState := pageInfoState st; searching := searching st;
     currentSearchQuery := q; searchSub := searchSub st;
     subs := subs st; subscriptions := subscriptions st;
     deletions := deletions st; resets := resets st; calls := calls st |}.

Definition set_searchSub (s : option nat) (st : State) : State :=
  {| config := config st;
     groupsDto := groupsDto st; deletedGroupsIds := deletedGroupsIds st;
     pageInfoState := pageInfoState st; searching := searching st;
     currentSearchQuery := currentSearchQuery st; searchSub := s;
     subs := subs st; subscriptions := subscriptions st;
     deletions := deletions st; resets := resets st; calls := calls st |}.

Definition set_subs (l : list nat) (st : State) : State :=
  {| config := config st;
     groupsDto := groupsDto st; deletedGroupsIds := deletedGroupsIds st;
     pageInfoState := pageInfoState st; searching := searching st;
     currentSearchQuery := currentSearchQuery st; searchSub := searchSub st;
     subs := l; subscriptions := subscriptions st;
     deletions := deletions st; resets := resets st; calls := calls st |}.

Definition set_subscriptions (h : list Subscription) (st : State) : State :=
  {| config := config st;
     groupsDto := groupsDto st; deletedGroupsIds := deletedGroupsIds st;
     pageInfoState := pageInfoState st; searching := searching st;
     currentSearchQuery := currentSearchQuery st; searchSub := searchSub st;
     subs := subs st; subscriptions := h;
     deletions := deletions st; resets := resets st; calls := calls st |}.

Definition set_deletions (d : list (GroupDtoModel * bool)) (st : State) : State :=
  {| config := config st;
     groupsDto := groupsDto st; deletedGroupsIds := deletedGroupsIds st;
     pageInfoState := pageInfoState st; searching := searching st;
     currentSearchQuery := currentSearchQuery st; searchSub := searchSub st;
     subs := subs st; subscriptions := subscriptions st;
     deletions := d; resets := resets st; calls := calls st |}.

Definition set_resets (r : list bool) (st : State) : State :=
  {| config := config st;
     groupsDto := groupsDto st; deletedGroupsIds := deletedGroupsIds st;
     pageInfoState := pageInfoState st; searching := searching st;
     currentSearchQuery := currentSearchQuery st; searchSub := searchSub st;
     subs := subs st; subscriptions := subscriptions st;
     deletions := deletions st; resets := r; calls := calls st |}.

(** Record one call on a collaborator. *)
Definition call (c : Call) (st : State) : State :=
  {| config := config st;
     groupsDto := groupsDto st; deletedGroupsIds := deletedGroupsIds st;
     pageInfoState := pageInfoState st; searching := searching st;
     currentSearchQuery := currentSearchQuery st; searchSub := searchSub st;
     subs := subs st; subscriptions := subscriptions st;
     deletions := deletions st; resets := resets st; calls := calls st ++ [c] |}.

(** The component as its constructor leaves it. *)
Definition initial : State :=
  {| config := {| paginationId := "groups-list-pagination"; pageSize := 5; currentPage := 1 |};
     groupsDto := None; deletedGroupsIds := [];
     pageInfoState := None; searching := false;
     currentSearchQuery := ""; searchSub := None;
     subs := []; subscriptions := [];
     deletions := []; resets := []; calls := [] |}.

(** ** Methods *)

(** [String.prototype.trim]. A string is its UTF-8 bytes. What is
    stripped is ECMAScript's WhiteSpace and LineTerminator: the six ASCII
    ones, and U+00A0, U+1680, U+2000 to U+200A, U+2028, U+2029, U+202F,
    U+205F, U+3000 and U+FEFF, which take two or three bytes. *)
Definition isWhiteSpace2 (a b : Ascii.ascii) : bool :=
  Nat.eqb (Ascii.nat_of_ascii a) 194 && Nat.eqb (Ascii.nat_of_ascii b) 160.

Definition isWhiteSpace3 (a b c : Ascii.ascii) : bool :=
  let x := Ascii.nat_of_ascii a in
  let y := Ascii.nat_of_ascii b in
  let z := Ascii.nat_of_ascii c in
  (Nat.eqb x 225 && Nat.eqb y 154 && Nat.eqb z 128)
  || (Nat.eqb x 226 && Nat.eqb y 128
      && ((Nat.leb 128 z && Nat.leb z 138)
          || Nat.eqb z 168 || Nat.eqb z 169 || Nat.eqb z 175))
  || (Nat.eqb x 226 && Nat.eqb y 129 && Nat.eqb z 159)
  || (Nat.eqb x 227 && Nat.eqb y 128 && Nat.eqb z 128)
  || (Nat.eqb x 239 && Nat.eqb y 187 && Nat.eqb z 191).

(** Strips the white space a string starts with; with [back], the string
    is read back to front, and so are the bytes of a code point. *)
Fixpoint strip (back : bool) (s : string) : string :=
  match s with
  | EmptyString => EmptyString
  | String a s1 =>
      if Ascii.is_space a then strip back s1
      else
        match s1 with
        | EmptyString => s
        | String b s2 =>
            if (if back then isWhiteSpace2 b a else isWhiteSpace2 a b)
            then strip back s2
            else
              match s2 with
              | EmptyString => s
              | String c s3 =>
                  if (if back then isWhiteSpace3 c b a else isWhiteSpace3 a b c)
                  then strip back s3
                  else s
              end
        end
  end.

Definition trimStart (s : string) : string := strip false s.

Definition trimEnd (s : string) : string :=
  String.rev (strip true (String.rev s)).

Definition trim (s : string) : string := trimEnd (trimStart s).

Definition close (s : Subscription) : Subscription :=
  {| closed := true; request := request s; inner := inner s |}.

(** [sub.unsubscribe()]. *)
Definition unsubscribe (sid : nat) (st : State) : State :=
  set_subscriptions (alter close sid (subscriptions st)) st.

(** [search(data)], with [query] for [data.query]: [None] is [null] or
    [undefined]. *)
Definition search (query : option string) (st : State) : State :=
  let st := set_searching true st in
  let st :=
    match query with
    | Some q =>
        if negb (String.eqb (currentSearchQuery st) q)
        then set_currentPage 1
               (set_currentSearchQuery q
                  (call (NavigateByUrl getGroupRegistryRouterLink) st))
        else st
    | None => st
    end in
  let st :=
    match searchSub st with
    | Some old =>
        set_subs (List.filter (fun sub => negb (Nat.eqb sub old)) (subs st))
          (unsubscribe old st)
    | None => st
    end in
  let req := (trim (currentSearchQuery st), currentPage (config st), pageSize (config st)) in
  let st := call (SearchGroups (trim (currentSearchQuery st))
                    (currentPage (config st)) (pageSize (config st))) st in
  let sid := List.length (subscriptions st) in
  let st := set_subscriptions
              (subscriptions st ++ [{| closed := false; request := req; inner := None |}]) st in
  let st := set_searchSub (Some sid) st in
  set_subs (subs st ++ [sid]) st.

Definition ngOnInit (st : State) : State :=
  search (Some (currentSearchQuery st)) st.

Definition onPageChange (event : nat) (st : State) : State :=
  let st := set_currentPage event st in
  search (Some (currentSearchQuery st)) st.

Definition clearFormAndResetResult (st : State) : State :=
  search (Some "") (call (PatchSearchForm "") st).

(** [reset()]: asks for the browse endpoint; the answer is awaited. *)
Definition reset (st : State) : State :=
  set_resets (resets st ++ [false]) (call GetBrowseEndpoint st).

(** [deleteGroup(group)]: asks for the deletion; the answer is awaited. *)
Definition deleteGroup (dto : GroupDtoModel) (st : State) : State :=
  match id (group dto) with
  | Some i => set_deletions (deletions st ++ [(dto, false)]) (call (DeleteById i) st)
  | None => st
  end.

Definition cleanupSubscribes (st : State) : State :=
  fold_left (fun s sid => unsubscribe sid s) (subs st) st.

Definition ngOnDestroy (st : State) : State := cleanupSubscribes st.

(** ** Subscriber callbacks

    Each takes one notification of the stream it is subscribed to. A
    notification for a subscription that is closed (or was never created)
    reaches no callback. *)

Definition callAll (cs : list Call) (st : State) : State :=
  fold_left (fun s c => call c s) cs st.

(** An error reaches a subscriber that has no error handler: the
    subscription ends and the error is reported as uncaught. *)
Definition fail (sid : nat) (st : State) : State :=
  call UncaughtError (unsubscribe sid st).

(** The lookups when none of them has answered yet. *)
Definition noAnswers : Lookups :=
  {| isAuthorized := fun _ _ => [];
     findByHref := fun _ => [];
     findSubgroupsByHref := fun _ => [];
     findMembersByHref := fun _ => [] |}.

(** The stream of [searchGroups] delivers [n] to subscription [sid]: the
    pipe up to [switchMap], whose function issues the lookups of the page
    and replaces the page being assembled. [atOnce] is the new inner
    stream as it stands when it is subscribed, before any lookup answers:
    for an empty page it is [of] the empty list, which reaches the
    callback given to [subscribe] right away and ends the inner stream;
    for any other page it has delivered nothing yet. When the source
    completes while no page is being assembled, the subscription has
    completed, and is closed. The inner stream of a page that is not empty
    is taken to stay open: the authorization stream of a row is not cut by
    [take(1)]. *)
Definition onSearchGroups (sid : nat)
    (n : Notification (RemoteData (PaginatedList Group))) (st : State) : State :=
  match subscriptions st !! sid with
  | Some sub =>
      if closed sub then st
      else
        match settle (getAllSucceededRemoteDataPayload [n]) with
        | Emits (Some groups) =>
            let atOnce := assemble noAnswers (deletedGroupsIds st) groups in
            let st1 :=
              set_subscriptions
                (<[sid := {| closed := false; request := request sub;
                             inner := if ended atOnce then None
                                      else Some (deletedGroupsIds st, groups) |}]>
                   (subscriptions st))
                (callAll (assembleCalls (deletedGroupsIds st) groups) st) in
            match settle atOnce with
            | Emits value => publish value st1
            | Silent => st1
            | Fails => fail sid st1
            end
        | Emits None => fail sid st
        | Silent =>
            if ended (getAllSucceededRemoteDataPayload [n]) && negb (hasValue (inner sub))
            then unsubscribe sid st
            else st
        | Fails => fail sid st
        end
  | None => st
  end.

(** The lookups of the page being assembled by [sid] have answered [w] so
    far: the rest of the pipe, and the callback given to [subscribe] on
    the latest delivery of the assembly. When a lookup delivers again, that
    is another such event, with the longer [w]. *)
Definition onLookups (sid : nat) (w : Lookups) (st : State) : State :=
  match subscriptions st !! sid with
  | Some sub =>
      if closed sub then st
      else
        match inner sub with
        | Some (deleted, groups) =>
            match settle (assemble w deleted groups) with
            | Emits value => publish value st
            | Silent => st
            | Fails => fail sid st
            end
        | None => st
        end
  | None => st
  end.

(** [[...ids, id]]; [deleteGroup] subscribes only for a group with an id. *)
Definition tombstone (x : option string) (ids : list string) : list string :=
  match x with Some i => ids ++ [i] | None => ids end.

(** The stream of [groupService.delete] delivers [n] to the [did]-th
    deletion: [getFirstCompletedRemoteData], then the callback. *)
Definition onDelete (did : nat) (n : Notification (RemoteData unit)) (st : State) : State :=
  match deletions st !! did with
  | Some (dto, false) =>
      match settle (getFirstCompletedRemoteData [n]) with
      | Emits rd =>
          let st := set_deletions (<[did := (dto, true)]> (deletions st)) st in
          if hasSucceeded rd then
            let st := set_deletedGroupsIds
                        (tombstone (id (group dto)) (deletedGroupsIds st)) st in
            let st := call (NotifySuccess
                              (translate (messagePrefix +:+ "notification.deleted.success")
                                 [("name", Some (name (group dto)))])) st in
            reset st
          else
            call (NotifyError
                    (translate (messagePrefix +:+ "notification.deleted.failure.title")
                       [("name", Some (name (group dto)))])
                    (translate (messagePrefix +:+ "notification.deleted.failure.content")
                       [("cause", errorMessage rd)])) st
      | Silent => st
      | Fails => call UncaughtError (set_deletions (<[did := (dto, true)]> (deletions st)) st)
      end
  | _ => st
  end.

(** The stream of [getBrowseEndpoint] delivers [n] to the [rid]-th
    [reset]: [take(1)], then the callback. *)
Definition onBrowseEndpoint (rid : nat) (n : Notification string) (st : State) : State :=
  match resets st !! rid with
  | Some false =>
      match settle (Rx.take 1 [n]) with
      | Emits href =>
          call (SetStaleByHrefSubstring href) (set_resets (<[rid := true]> (resets st)) st)
      | Silent => st
      | Fails => call UncaughtError (set_resets (<[rid := true]> (resets st)) st)
      end
  | _ => st
  end.

(** ** The component as a state machine *)

Inductive Event : Type :=
  | NgOnInit
  | OnPageChange (event : nat)
  | SubmitSearch (query : option string)
  | ClearFormAndResetResult
  | DeleteGroup (dto : GroupDtoModel)
  | NgOnDestroy
  | SearchGroupsAnswers (sid : nat) (n : Notification (RemoteData (PaginatedList Group)))
  | LookupsAnswer (sid : nat) (w : Lookups)
  | DeleteAnswers (did : nat) (n : Notification (RemoteData unit))
  | BrowseEndpointAnswers (rid : nat) (n : Notification string).

Definition step (e : Event) (st : State) : State :=
  match e with
  | NgOnInit => ngOnInit st
  | OnPageChange event => onPageChange event st
  | SubmitSearch query => search query st
  | ClearFormAndResetResult => clearFormAndResetResult st
  | DeleteGroup dto => deleteGroup dto st
  | NgOnDestroy => ngOnDestroy st
  | SearchGroupsAnswers sid n => onSearchGroups sid n st
  | LookupsAnswer sid w => onLookups sid w st
  | DeleteAnswers did n => onDelete did n st
  | BrowseEndpointAnswers rid n => onBrowseEndpoint rid n st
  end.

Definition run (es : list Event) (st : State) : State :=
  fold_left (fun s e => step e s) es st.

(** ** A sample world *)

Definition succeeded {A} (a : A) : RemoteData A :=
  {| state := Success; errorMessage := None; payload := Some a |}.

Definition failed {A} (msg : string) : RemoteData A :=
  {| state := Failure; errorMessage := Some msg; payload := None |}.

Definition sampleGroup (i : string) : Group :=
  {| id := Some i; name := "group " +:+ i; self := "/groups/" +:+ i;
     _links := {| subgroups_href := "/groups/" +:+ i +:+ "/subgroups";
                  epersons_href := "/groups/" +:+ i +:+ "/epersons";
                  object_href := "/groups/" +:+ i +:+ "/object" |} |}.

Definition samplePageInfo (n : nat) : PageInfo :=
  {| elementsPerPage := 5; totalElements := n; totalPages := 1; pageNumber := 1 |}.

Definition samplePage (ids : list string) : PaginatedList Group :=
  buildPaginatedList (samplePageInfo (List.length ids)) (List.map sampleGroup ids).

(** Every lookup succeeds; the actor may delete group A only, and no group
    has a linked object. *)
Definition sampleLookups : Lookups :=
  {| isAuthorized := fun _ url =>
       [Next (match url with Some u => String.eqb u "/groups/A" | None => false end)];
     findByHref := fun _ =>
       [Next {| state := Success; errorMessage := None; payload := None |}];
     findSubgroupsByHref := fun _ => [Next (succeeded (samplePage []))];
     findMembersByHref := fun _ =>
       [Next (succeeded (buildPaginatedList (samplePageInfo 0) []))] |}.

Definition sampleRow (i : string) (able : bool) : GroupDtoModel :=
  {| ableToDelete := able; group := sampleGroup i;
     subgroups := Some (samplePage []);
     epersons := Some (buildPaginatedList (samplePageInfo 0) []) |}.



(** As [sampleLookups], but the authorization lookup first answers no for
    every group and then what [sampleLookups] answers. *)
Definition revisedLookups : Lookups :=
  {| isAuthorized := fun f url => Next false :: isAuthorized sampleLookups f url;
     findByHref := findByHref sampleLookups;
     findSubgroupsByHref := findSubgroupsByHref sampleLookups;
     findMembersByHref := findMembersByHref sampleLookups |}.


(** As [sampleLookups], but the authorization lookup first answers no and
    then yes. *)
Definition grantingLookups : Lookups :=
  {| isAuthorized := fun _ _ => [Next false; Next true];
     findByHref := findByHref sampleLookups;
     findSubgroupsByHref := findSubgroupsByHref sampleLookups;
     findMembersByHref := findMembersByHref sampleLookups |}.

(** The gateway lists A and B for every query but [b], for which it lists
    B alone. *)
Definition sampleGateway (req : string * nat * nat) : RemoteData (PaginatedList Group) :=
  if String.eqb (fst (fst req)) "b" then succeeded (samplePage ["B"])
  else succeeded (samplePage ["A"; "B"]).

(** The members lookup of every group ends in an error. *)
Definition brokenMembersLookups : Lookups :=
  {| isAuthorized := isAuthorized sampleLookups;
     findByHref := findByHref sampleLookups;
     findSubgroupsByHref := findSubgroupsByHref sampleLookups;
     findMembersByHref := fun _ => [Error] |}.

(** ** Vocabulary of the statements *)

(** The row a group gets from the answers of its four lookups. *)
Definition rowOf (g : Group) (isAuthorized hasLinkedObject : bool)
    (sg : RemoteData (PaginatedList Group)) (mem : RemoteData (PaginatedList EPerson))
  : GroupDtoModel :=
  {| ableToDelete := isAuthorized && negb hasLinkedObject;
     group := g;
     subgroups := payload sg;
     epersons := payload mem |}.

(** At most one live search subscription: every subscription that is
    still open is the one [searchSub] refers to. *)
Definition wf (st : State) : Prop :=
  forall sid sub,
    subscriptions st !! sid = Some sub -> closed sub = false -> searchSub st = Some sid.

(** The events that submit a search: a query or a page change. *)
Definition submission (e : Event) : Prop :=
  match e with
  | NgOnInit | OnPageChange _ | SubmitSearch _ | ClearFormAndResetResult => True
  | _ => False
  end.


(** The answers that may arrive once the lookups of the last search have
    answered [w]: any answer for an earlier subscription, and for
    subscription [sid] the gateway's response [answer] and the lookups'
    answers [w]. *)
Definition lateAnswer (w : Lookups) (sid : nat)
    (answer : RemoteData (PaginatedList Group)) (e : Event) : Prop :=
  match e with
  | SearchGroupsAnswers s n => s = sid -> n = Next answer
  | LookupsAnswer s w' => s = sid -> w' = w
  | _ => False
  end.

(** The answers that may arrive before that: any answer for an earlier
    subscription, and for subscription [sid] the gateway's response
    [answer] and whatever the lookups of its page [groups] have answered so
    far, short of an error. *)
Definition earlierAnswer (sid : nat) (answer : RemoteData (PaginatedList Group))
    (D : list string) (groups : PaginatedList Group) (e : Event) : Prop :=
  match e with
  | SearchGroupsAnswers s n => s = sid -> n = Next answer
  | LookupsAnswer s w' => s = sid -> settle (assemble w' D groups) <> Fails
  | _ => False
  end.

(** The view a presentation layer reads. *)
Definition published (value : PaginatedList GroupDtoModel) (st : State) : Prop :=
  groupsDto st = Some value
  /\ pageInfoState st = Some (pageInfo value)
  /\ searching st = false.



(** Every tombstoned id, and every deletion the component waits for, goes
    back to a call of [groupService.delete]. *)
Definition accounted (st : State) : Prop :=
  (forall i, In i (deletedGroupsIds st) -> In (DeleteById i) (calls st))
  /\ (forall did dto b, deletions st !! did = Some (dto, b) ->
        exists i, id (group dto) = Some i /\ In (DeleteById i) (calls st)).

(** ** Operators: what a subscriber gets through a pipe *)

Lemma settle_fails_inv {A} (o : Observable A) :
  settle o = Fails -> exists o', o = Error :: o'.
Proof.
  destruct o as [|[a| |] o']; simpl; intros H; try discriminate.
  now exists o'.
Qed.

Lemma settle_emits_inv {A} (o : Observable A) (a : A) :
  settle o = Emits a -> exists o', o = Next a :: o'.
Proof.
  destruct o as [|[b| |] o']; simpl; intros H; try discriminate.
  injection H as ->. now exists o'.
Qed.

Lemma settle_map {A B} (f : A -> B) (o : Observable A) :
  settle (Rx.map f o) =
  match settle o with Emits a => Emits (f a) | Silent => Silent | Fails => Fails end.
Proof. destruct o as [|[a| |] o']; reflexivity. Qed.

Lemma settle_deliver {A} (r : Outcome A) : settle (deliver r) = r.
Proof. destruct r; reflexivity. Qed.


Lemma settle_fails_latest {A} (o : Observable A) :
  settle o = Fails -> latest o = Fails.
Proof. intros [o' ->]%settle_fails_inv. reflexivity. Qed.

Lemma latest_deliver {A} (r : Outcome A) : latest (deliver r) = r.
Proof. destruct r; reflexivity. Qed.

(** A stream cut by [take(1)] has one value at most: its latest value is
    its first. *)
Lemma latest_take1 {A} (o : Observable A) :
  latest (Rx.take 1 o) = settle (Rx.take 1 o).
Proof. destruct o as [|[a| |] o']; reflexivity. Qed.

Lemma settle_combineLatest4 {A B C D}
    (a : Observable A) (b : Observable B) (c : Observable C) (d : Observable D) x y z u :
  latest a = Emits x -> latest b = Emits y -> latest c = Emits z -> latest d = Emits u ->
  settle (observableCombineLatest4 a b c d) = Emits (x, y, z, u).
Proof.
  intros Ha Hb Hc Hd. unfold observableCombineLatest4.
  rewrite Ha, Hb, Hc, Hd. reflexivity.
Qed.

(** ** Page assembly *)

Section AssemblyFacts.
Variable w : Lookups.

Lemma latest_getSubgroups (g : Group) :
  latest (getSubgroups w g) = settle (getSubgroups w g).
Proof. apply latest_take1. Qed.

Lemma latest_getMembers (g : Group) :
  latest (getMembers w g) = settle (getMembers w g).
Proof. apply latest_take1. Qed.

Lemma latest_hasLinkedDSO (g : Group) :
  latest (hasLinkedDSO w g) = settle (hasLinkedDSO w g).
Proof.
  unfold hasLinkedDSO, getFirstSucceededRemoteData.
  destruct (Rx.filter hasSucceeded (findByHref w (object_href (_links g))))
    as [|[a| |] o']; reflexivity.
Qed.

(** A row stream is read through its latest delivery. *)
Lemma latest_enrich (g : Group) : latest (enrich w g) = settle (enrich w g).
Proof.
  unfold enrich, observableCombineLatest4.
  destruct (latest (isAuthorized w _ _)), (latest (hasLinkedDSO w g)),
    (latest (getSubgroups w g)), (latest (getMembers w g)); reflexivity.
Qed.

Lemma settle_enrich (g : Group) a l sg mem :
  latest (isAuthorized w CanDelete (Some (self g))) = Emits a ->
  latest (hasLinkedDSO w g) = Emits l ->
  latest (getSubgroups w g) = Emits sg ->
  latest (getMembers w g) = Emits mem ->
  settle (enrich w g) = Emits (rowOf g a l sg mem).
Proof.
  intros Ha Hl Hs Hm. unfold enrich. rewrite settle_map.
  simpl hasValue. cbv iota.
  rewrite (settle_combineLatest4 _ _ _ _ _ _ _ _ Ha Hl Hs Hm).
  reflexivity.
Qed.

(** A page with a tombstoned group hands [undefined] to [combineLatest],
    and no value comes out of the join. *)
Lemma joinLatest_tombstoned (deleted : list string) (groups : PaginatedList Group) (g : Group) :
  In g (page groups) -> includes deleted (id g) = true ->
  forall rows, joinLatest (rowStreams w deleted groups) <> Emits rows.
Proof.
  unfold rowStreams. destruct groups as [info pg]. simpl.
  induction pg as [|h t IH]; simpl; intros Hin Hdel rows.
  - contradiction.
  - destruct (includes deleted (id h)) eqn:Hh; simpl; [discriminate|].
    destruct Hin as [->|Hin]; [congruence|].
    specialize (IH Hin Hdel).
    destruct (latest (enrich w h)); [|destruct (joinLatest _); discriminate|discriminate].
    destruct (joinLatest _) as [l| |] eqn:Hj; try discriminate.
    exfalso. exact (IH l eq_refl).
Qed.

Lemma assemble_tombstoned (deleted : list string) (groups : PaginatedList Group) (g : Group) :
  In g (page groups) -> includes deleted (id g) = true ->
  forall value, settle (assemble w deleted groups) <> Emits value.
Proof.
  intros Hin Hdel value. unfold assemble.
  destruct (page groups) as [|h t] eqn:Hp; [contradiction|]. simpl Nat.eqb. cbv iota.
  rewrite settle_map. unfold observableCombineLatest.
  pose proof (joinLatest_tombstoned deleted groups g) as Hj.
  rewrite Hp in Hj. specialize (Hj Hin Hdel).
  destruct (rowStreams w deleted groups) as [|x xs] eqn:Hr.
  - simpl. discriminate.
  - rewrite settle_deliver. destruct (joinLatest (x :: xs)) as [l| |]; try discriminate.
    exfalso. exact (Hj l eq_refl).
Qed.

End AssemblyFacts.

(** Before any lookup has answered, the rows of a page that is not empty
    have delivered nothing. *)
Lemma joinLatest_noAnswers (deleted : list string) (pg : list Group) :
  joinLatest
    (List.map
       (fun g => if negb (includes deleted (id g)) then Some (enrich noAnswers g) else None)
       pg) =
  match pg with [] => Emits [] | _ => Silent end.
Proof.
  induction pg as [|h t IH]; [reflexivity|].
  cbn [List.map joinLatest]. destruct (negb (includes deleted (id h))); [|reflexivity].
  change (latest (enrich noAnswers h)) with (@Silent GroupDtoModel). cbv iota.
  rewrite IH. destruct t; reflexivity.
Qed.

(** The inner stream of [switchMap] as it is subscribed: [of] the empty
    list for an empty page, nothing yet for any other. *)
Lemma assemble_noAnswers (deleted : list string) (groups : PaginatedList Group) :
  assemble noAnswers deleted groups =
    if Nat.eqb (List.length (page groups)) 0
    then observableOf (buildPaginatedList (pageInfo groups) [])
    else [].
Proof.
  unfold assemble, rowStreams, observableCombineLatest.
  pose proof (joinLatest_noAnswers deleted (page groups)) as Hj.
  destruct (page groups) as [|h t]; [reflexivity|].
  cbn [List.length Nat.eqb]. cbv iota. rewrite Hj. reflexivity.
Qed.

(** C9: an empty page is answered at once, from the page alone: the result
    is [of] an empty list with the given pageInfo whatever the lookups would
    answer, and the assembly issues no lookup. *)
Theorem assemble_empty_page (w : Lookups) (deleted : list string) (info : PageInfo) :
  assemble w deleted (buildPaginatedList info []) =
    observableOf (buildPaginatedList info [])
  /\ settle (assemble w deleted (buildPaginatedList info [])) =
       Emits (buildPaginatedList info [])
  /\ assembleCalls deleted (buildPaginatedList info []) = [].
Proof. repeat split. Qed.

(** C4: for a page none of whose groups is tombstoned, once each of the
    four lookups of every group has delivered, what the assembly delivers
    holds one row per group, in the order of the page, with the pageInfo of
    the page; each row is made of the latest value of each lookup, and is
    able to delete exactly when the actor is authorized and the group has
    no linked object. *)
Theorem assemble_rows_in_order (w : Lookups) (deleted : list string)
    (groups : PaginatedList Group)
    (auth linked : Group -> bool)
    (sg : Group -> RemoteData (PaginatedList Group))
    (mem : Group -> RemoteData (PaginatedList EPerson)) :
  (forall g, In g (page groups) -> includes deleted (id g) = false) ->
  (forall g, In g (page groups) ->
     latest (isAuthorized w CanDelete (Some (self g))) = Emits (auth g)
     /\ latest (hasLinkedDSO w g) = Emits (linked g)
     /\ latest (getSubgroups w g) = Emits (sg g)
     /\ latest (getMembers w g) = Emits (mem g)) ->
  exists rows,
    settle (assemble w deleted groups) = Emits (buildPaginatedList (pageInfo groups) rows)
    /\ List.length rows = List.length (page groups)
    /\ List.map group rows = page groups
    /\ rows = List.map (fun g => rowOf g (auth g) (linked g) (sg g) (mem g)) (page groups)
    /\ (forall i row, rows !! i = Some row ->
          ableToDelete row = auth (group row) && negb (linked (group row))).
Proof.
  intros Hlive Hans.
  set (mk := fun g => rowOf g (auth g) (linked g) (sg g) (mem g)).
  exists (List.map mk (page groups)).
  assert (Hjoin : joinLatest (rowStreams w deleted groups) = Emits (List.map mk (page groups))).
  { unfold rowStreams. induction (page groups) as [|h t IH]; simpl; [reflexivity|].
    rewrite (Hlive h) by (now left). simpl.
    destruct (Hans h) as (Ha & Hl & Hs & Hm); [now left|].
    rewrite latest_enrich, (settle_enrich w h _ _ _ _ Ha Hl Hs Hm).
    rewrite IH; [reflexivity| |]; intros g Hg; [apply Hlive|apply Hans]; now right. }
  repeat split.
  - unfold assemble. destruct (page groups) as [|h t] eqn:Hp; [reflexivity|].
    simpl Nat.eqb. cbv iota. rewrite settle_map. unfold observableCombineLatest.
    destruct (rowStreams w deleted groups) as [|x xs] eqn:Hr.
    + unfold rowStreams in Hr. rewrite Hp in Hr. discriminate.
    + rewrite settle_deliver, Hjoin. reflexivity.
  - apply length_map.
  - rewrite List.map_map. simpl. apply List.map_id.
  - intros i row Hrow. apply list_lookup_fmap_Some in Hrow as (g & -> & _). reflexivity.
Qed.

Lemma assemble_rows_in_order_witness :
  exists rows,
    settle (assemble revisedLookups [] (samplePage ["A"; "B"])) =
      Emits (buildPaginatedList (samplePageInfo 2) rows)
    /\ List.length rows = 2
    /\ List.map group rows = [sampleGroup "A"; sampleGroup "B"]
    /\ rows = [sampleRow "A" true; sampleRow "B" false]
    /\ (forall i row, rows !! i = Some row ->
          ableToDelete row =
            String.eqb (self (group row)) "/groups/A" && negb false).
Proof.
  apply (assemble_rows_in_order revisedLookups [] (samplePage ["A"; "B"])
           (fun g => String.eqb (self g) "/groups/A") (fun _ => false)
           (fun _ => succeeded (samplePage []))
           (fun _ => succeeded (buildPaginatedList (samplePageInfo 0) []))).
  - intros g _. destruct (id g); reflexivity.
  - intros g _. repeat split.
Defined.

(** The authorization stream is not cut by [take(1)]: when it delivers
    again, the row is delivered again, with the new answer. *)
Example enrich_follows_authorization :
  settle (enrich sampleLookups (sampleGroup "B")) = Emits (sampleRow "B" false)
  /\ isAuthorized grantingLookups CanDelete (Some "/groups/B") = [Next false; Next true]
  /\ settle (enrich grantingLookups (sampleGroup "B")) = Emits (sampleRow "B" true).
Proof. repeat split. Qed.



(** A failed response of the linked-object lookup is a value, not an error:
    [getFirstSucceededRemoteData] drops it, [catchError] sees nothing, and
    [hasLinkedDSO] waits for a succeeded response. *)
Lemma hasLinkedDSO_failed_response (w : Lookups) (g : Group) (msg : string) :
  findByHref w (object_href (_links g)) = [Next (failed msg)] ->
  hasLinkedDSO w g = [] /\ forall row, settle (enrich w g) <> Emits row.
Proof.
  intros H. assert (Hd : hasLinkedDSO w g = []).
  { unfold hasLinkedDSO, getFirstSucceededRemoteData. rewrite H. reflexivity. }
  split; [exact Hd|]. intros row. unfold enrich. rewrite settle_map.
  unfold observableCombineLatest4. rewrite Hd.
  change (latest (@nil (Notification bool))) with (@Silent bool).
  destruct (latest (isAuthorized w _ _)), (latest (getSubgroups w g)),
    (latest (getMembers w g)); discriminate.
Qed.


(** ** The search controller *)

(** [trim] strips white space at both ends and keeps it inside: here a
    no-break space (U+00A0) and a space in front, a line separator
    (U+2028) and a tab behind. *)
Example trim_strips_both_ends :
  trim (String (Ascii.ascii_of_nat 194) (String (Ascii.ascii_of_nat 160)
          (" a b" +:+
           String (Ascii.ascii_of_nat 226) (String (Ascii.ascii_of_nat 128)
             (String (Ascii.ascii_of_nat 168) (String (Ascii.ascii_of_nat 9) "")))))) =
    "a b"
  /\ trim " alice " = "alice"
  /\ trim "" = "".
Proof. repeat split. Qed.

Lemma length_unsubscribe (sid : nat) (st : State) :
  List.length (subscriptions (unsubscribe sid st)) = List.length (subscriptions st).
Proof. unfold unsubscribe. simpl. apply length_alter. Qed.

(** What [search] does to the fields that do not depend on the query. *)
Lemma search_frame (query : option string) (st : State) :
  let st' := search query st in
  searching st' = true
  /\ groupsDto st' = groupsDto st
  /\ pageInfoState st' = pageInfoState st
  /\ deletedGroupsIds st' = deletedGroupsIds st
  /\ deletions st' = deletions st
  /\ resets st' = resets st
  /\ pageSize (config st') = pageSize (config st)
  /\ searchSub st' = Some (List.length (subscriptions st))
  /\ subscriptions st' =
       match searchSub st with
       | Some old => alter close old (subscriptions st)
       | None => subscriptions st
       end ++
       [{| closed := false;
           request := (trim (currentSearchQuery st'), currentPage (config st'),
                       pageSize (config st'));
           inner := None |}].
Proof.
  unfold search.
  destruct query as [q|]; [destruct (negb (String.eqb (currentSearchQuery _) q))|];
    destruct st as [cfg dto del pi sr cq [old|] sb sbs dls rs cs]; simpl;
    rewrite ?length_alter; repeat split.
Qed.

(** The query and the page after [search], and the calls it makes. *)
Lemma search_query (query : option string) (st : State) :
  let st' := search query st in
  let changed :=
    match query with
    | Some q => negb (String.eqb (currentSearchQuery st) q)
    | None => false
    end in
  currentSearchQuery st' =
    (if changed then default (currentSearchQuery st) query else currentSearchQuery st)
  /\ currentPage (config st') = (if changed then 1 else currentPage (config st))
  /\ calls st' =
       calls st ++
       (if changed then [NavigateByUrl getGroupRegistryRouterLink] else []) ++
       [SearchGroups (trim (currentSearchQuery st')) (currentPage (config st'))
          (pageSize (config st'))].
Proof.
  unfold search.
  destruct query as [q|]; [destruct (negb (String.eqb (currentSearchQuery _) q)) eqn:E|];
    destruct st as [cfg dto del pi sr cq [old|] sb sbs dls rs cs]; simpl in *;
    rewrite ?E; simpl; rewrite <- ?app_assoc; repeat split.
Qed.

Lemma search_new_subscription (query : option string) (st : State) :
  let st' := search query st in
  subscriptions st' !! List.length (subscriptions st) =
    Some {| closed := false;
            request := (trim (currentSearchQuery st'), currentPage (config st'),
                        pageSize (config st'));
            inner := None |}.
Proof.
  intros st'. destruct (search_frame query st) as (_ & _ & _ & _ & _ & _ & _ & _ & Hs).
  fold st' in Hs. rewrite Hs. apply list_lookup_middle.
  destruct (searchSub st); [rewrite length_alter|]; reflexivity.
Qed.

(** C8: a search with a query text resets the page to 1, records the query
    and navigates to the registry route when the text differs from the
    current query; with the same text it keeps page and query and does not
    navigate; either way it raises the busy flag and issues the fetch for
    the (trimmed) query at the page it ends with, on a fresh subscription. *)
Theorem search_resets_page_iff_query_changed (st : State) (q : string) :
  let st' := search (Some q) st in
  (q <> currentSearchQuery st ->
     currentPage (config st') = 1
     /\ currentSearchQuery st' = q
     /\ calls st' = calls st ++
          [NavigateByUrl getGroupRegistryRouterLink;
           SearchGroups (trim q) 1 (pageSize (config st))])
  /\ (q = currentSearchQuery st ->
     currentPage (config st') = currentPage (config st)
     /\ currentSearchQuery st' = currentSearchQuery st
     /\ calls st' = calls st ++
          [SearchGroups (trim q) (currentPage (config st)) (pageSize (config st))])
  /\ searching st' = true
  /\ searchSub st' = Some (List.length (subscriptions st))
  /\ subscriptions st' !! List.length (subscriptions st) =
       Some {| closed := false;
               request := (trim (currentSearchQuery st'), currentPage (config st'),
                           pageSize (config st'));
               inner := None |}.
Proof.
  intros st'.
  destruct (search_frame (Some q) st) as (Hbusy & _ & _ & _ & _ & _ & Hsize & Hsub & _).
  destruct (search_query (Some q) st) as (Hq & Hp & Hc).
  pose proof (search_new_subscription (Some q) st) as Hnew.
  fold st' in Hbusy, Hsize, Hsub, Hq, Hp, Hc, Hnew. clearbody st'.
  simpl in Hq, Hp, Hc.
  repeat split; try assumption.
  - destruct (String.eqb_spec (currentSearchQuery st) q); [congruence|]. exact Hp.
  - destruct (String.eqb_spec (currentSearchQuery st) q); [congruence|]. exact Hq.
  - destruct (String.eqb_spec (currentSearchQuery st) q); [congruence|].
    simpl in *. rewrite Hc, Hq, Hp, Hsize. reflexivity.
  - destruct (String.eqb_spec (currentSearchQuery st) q); [|congruence]. exact Hp.
  - destruct (String.eqb_spec (currentSearchQuery st) q); [|congruence]. exact Hq.
  - destruct (String.eqb_spec (currentSearchQuery st) q); [|congruence].
    simpl in *. rewrite Hc, Hq, Hp, Hsize. subst q. reflexivity.
Qed.

Lemma search_resets_page_iff_query_changed_witness :
  let st := onPageChange 3 (search (Some "alice") initial) in
  (currentPage (config st) = 3 /\ currentSearchQuery st = "alice")
  /\ (currentPage (config (search (Some "bob ") st)) = 1
      /\ currentSearchQuery (search (Some "bob ") st) = "bob "
      /\ calls (search (Some "bob ") st) = calls st ++
           [NavigateByUrl getGroupRegistryRouterLink; SearchGroups "bob" 1 5])
  /\ (currentPage (config (search (Some "alice") st)) = 3
      /\ currentSearchQuery (search (Some "alice") st) = "alice"
      /\ calls (search (Some "alice") st) = calls st ++ [SearchGroups "alice" 3 5]).
Proof.
  intros st. split; [split; reflexivity|]. split.
  - apply (proj1 (search_resets_page_iff_query_changed st "bob ")). discriminate.
  - apply (proj1 (proj2 (search_resets_page_iff_query_changed st "alice"))). reflexivity.
Defined.

(** C10: a search whose query is [null] or [undefined] leaves the stored
    query and the page as they are and does not navigate; it still raises
    the busy flag and issues the fetch, for the stored query at the current
    page, on a fresh subscription. *)
Theorem search_without_query (st : State) :
  let st' := search None st in
  currentSearchQuery st' = currentSearchQuery st
  /\ currentPage (config st') = currentPage (config st)
  /\ calls st' = calls st ++
       [SearchGroups (trim (currentSearchQuery st)) (currentPage (config st))
          (pageSize (config st))]
  /\ searching st' = true
  /\ searchSub st' = Some (List.length (subscriptions st))
  /\ subscriptions st' !! List.length (subscriptions st) =
       Some {| closed := false;
               request := (trim (currentSearchQuery st), currentPage (config st),
                           pageSize (config st));
               inner := None |}.
Proof.
  intros st'.
  destruct (search_frame None st) as (Hbusy & _ & _ & _ & _ & _ & Hsize & Hsub & _).
  destruct (search_query None st) as (Hq & Hp & Hc).
  pose proof (search_new_subscription None st) as Hnew.
  fold st' in Hbusy, Hsize, Hsub, Hq, Hp, Hc, Hnew. clearbody st'.
  simpl in Hq, Hp, Hc, Hnew.
  rewrite Hq, Hp, Hsize in Hc, Hnew.
  repeat split; assumption.
Qed.

Lemma wf_initial : wf initial.
Proof. intros sid sub H. destruct sid; discriminate. Qed.

(** A step that keeps [searchSub] and opens no subscription keeps [wf]. *)
Lemma wf_mono (st st' : State) :
  searchSub st' = searchSub st ->
  (forall sid sub', subscriptions st' !! sid = Some sub' -> closed sub' = false ->
     exists sub, subscriptions st !! sid = Some sub /\ closed sub = false) ->
  wf st -> wf st'.
Proof.
  intros Hs Hsubs Hwf sid sub' Hl Hc. rewrite Hs.
  destruct (Hsubs sid sub' Hl Hc) as (sub & Hl' & Hc'). eauto.
Qed.

Lemma callAll_calls (cs : list Call) (st : State) :
  callAll cs st =
  {| config := config st;
     groupsDto := groupsDto st; deletedGroupsIds := deletedGroupsIds st;
     pageInfoState := pageInfoState st; searching := searching st;
     currentSearchQuery := currentSearchQuery st; searchSub := searchSub st;
     subs := subs st; subscriptions := subscriptions st;
     deletions := deletions st; resets := resets st; calls := calls st ++ cs |}.
Proof.
  revert st. induction cs as [|c cs IH]; intros st; simpl.
  - rewrite app_nil_r. destruct st; reflexivity.
  - unfold callAll in IH. rewrite IH. simpl. rewrite <- app_assoc. reflexivity.
Qed.

Lemma lookup_alter_close_open (l : list Subscription) (i sid : nat) (sub' : Subscription) :
  alter close i l !! sid = Some sub' -> closed sub' = false ->
  i <> sid /\ l !! sid = Some sub'.
Proof.
  intros Hl Hc. destruct (decide (i = sid)) as [->|Hne].
  - rewrite list_lookup_alter_eq in Hl. destruct (l !! sid); simpl in Hl; [|discriminate].
    injection Hl as <-. discriminate.
  - rewrite list_lookup_alter_ne in Hl by assumption. auto.
Qed.

Lemma wf_unsubscribe (sid : nat) (st : State) : wf st -> wf (unsubscribe sid st).
Proof.
  apply wf_mono; [reflexivity|]. intros j sub' Hl Hc. simpl in Hl.
  apply lookup_alter_close_open in Hl as [_ Hl]; eauto.
Qed.

Lemma wf_fail (sid : nat) (st : State) : wf st -> wf (fail sid st).
Proof. intros H. apply (wf_unsubscribe sid) in H. exact H. Qed.

Lemma wf_search (query : option string) (st : State) : wf st -> wf (search query st).
Proof.
  intros Hwf sid sub' Hl Hc.
  destruct (search_frame query st) as (_ & _ & _ & _ & _ & _ & _ & Hsub & Hs).
  cbv zeta in Hsub, Hs. rewrite Hsub. rewrite Hs in Hl. clear Hs Hsub.
  apply lookup_snoc_Some in Hl as [[Hlt Hl]|[-> _]].
  - exfalso. destruct (searchSub st) as [old|] eqn:Hold.
    + apply lookup_alter_close_open in Hl as [Hne Hl]; [|assumption].
      apply Hne. specialize (Hwf sid sub' Hl Hc). congruence.
    + specialize (Hwf sid sub' Hl Hc). congruence.
  - destruct (searchSub st); [rewrite length_alter|]; reflexivity.
Qed.

Lemma wf_frame (st st' : State) :
  searchSub st' = searchSub st -> subscriptions st' = subscriptions st -> wf st -> wf st'.
Proof. intros Hs Hl. apply wf_mono; [assumption|]. rewrite Hl. eauto. Qed.

(** ** The page arrives *)

Lemma settle_succeeded {A} (rd : RemoteData A) (a : A) :
  hasSucceeded rd = true -> payload rd = Some a ->
  settle (getAllSucceededRemoteDataPayload [Next rd]) = Emits (Some a).
Proof.
  intros Hs Hp. unfold getAllSucceededRemoteDataPayload. simpl. rewrite Hs. simpl.
  rewrite Hp. reflexivity.
Qed.

Lemma settle_succeeded_inv {A} (n : Notification (RemoteData A)) (a : A) :
  settle (getAllSucceededRemoteDataPayload [n]) = Emits (Some a) ->
  exists rd, n = Next rd /\ hasSucceeded rd = true /\ payload rd = Some a.
Proof.
  unfold getAllSucceededRemoteDataPayload. destruct n as [rd| |]; try discriminate.
  simpl. destruct (hasSucceeded rd) eqn:Hs; [|discriminate]. simpl.
  intros H. exists rd. repeat split; congruence.
Qed.

(** An empty page is published as it arrives, and leaves nothing to
    assemble. *)
Lemma onSearchGroups_empty_page (st : State) (sid : nat) (sub : Subscription)
    (n : Notification (RemoteData (PaginatedList Group))) (groups : PaginatedList Group) :
  subscriptions st !! sid = Some sub -> closed sub = false ->
  settle (getAllSucceededRemoteDataPayload [n]) = Emits (Some groups) ->
  page groups = [] ->
  onSearchGroups sid n st =
    publish (buildPaginatedList (pageInfo groups) [])
      (set_subscriptions
         (<[sid := {| closed := false; request := request sub; inner := None |}]>
            (subscriptions st))
         st).
Proof.
  intros Hsub Hc Hn Hp. unfold onSearchGroups. rewrite Hsub, Hc, Hn.
  cbv zeta. rewrite assemble_noAnswers. unfold assembleCalls. rewrite Hp.
  reflexivity.
Qed.

(** A page that is not empty starts its lookups and waits for them. *)
Lemma onSearchGroups_arrival (st : State) (sid : nat) (sub : Subscription)
    (n : Notification (RemoteData (PaginatedList Group))) (groups : PaginatedList Group) :
  subscriptions st !! sid = Some sub -> closed sub = false ->
  settle (getAllSucceededRemoteDataPayload [n]) = Emits (Some groups) ->
  page groups <> [] ->
  onSearchGroups sid n st =
    set_subscriptions
      (<[sid := {| closed := false; request := request sub;
                   inner := Some (deletedGroupsIds st, groups) |}]> (subscriptions st))
      (callAll (assembleCalls (deletedGroupsIds st) groups) st).
Proof.
  intros Hsub Hc Hn Hp. unfold onSearchGroups. rewrite Hsub, Hc, Hn.
  cbv zeta. rewrite assemble_noAnswers.
  destruct (page groups) as [|h t]; [contradiction|]. reflexivity.
Qed.

(** What a notification of the gateway can do to the component. *)
Lemma onSearchGroups_shape (sid : nat)
    (n : Notification (RemoteData (PaginatedList Group))) (st : State) :
  let st' := onSearchGroups sid n st in
  st' = st \/ st' = fail sid st \/ st' = unsubscribe sid st
  \/ exists sub groups,
       subscriptions st !! sid = Some sub /\ closed sub = false
       /\ settle (getAllSucceededRemoteDataPayload [n]) = Emits (Some groups)
       /\ ((page groups = []
            /\ st' = publish (buildPaginatedList (pageInfo groups) [])
                       (set_subscriptions
                          (<[sid := {| closed := false; request := request sub;
                                       inner := None |}]> (subscriptions st))
                          st))
           \/ (page groups <> []
               /\ st' = set_subscriptions
                          (<[sid := {| closed := false; request := request sub;
                                       inner := Some (deletedGroupsIds st, groups) |}]>
                             (subscriptions st))
                          (callAll (assembleCalls (deletedGroupsIds st) groups) st))).
Proof.
  intros st'.
  destruct (subscriptions st !! sid) as [sub|] eqn:Hsub;
    [|left; unfold st', onSearchGroups; rewrite Hsub; reflexivity].
  destruct (closed sub) eqn:Hc;
    [left; unfold st', onSearchGroups; rewrite Hsub, Hc; reflexivity|].
  destruct (settle (getAllSucceededRemoteDataPayload [n])) as [[groups|]| |] eqn:Hn.
  - right. right. right. exists sub, groups. repeat split; try assumption.
    destruct (page groups) as [|h t] eqn:Hp.
    + left. split; [reflexivity|]. now apply onSearchGroups_empty_page.
    + right. split; [discriminate|].
      apply onSearchGroups_arrival; try assumption. rewrite Hp. discriminate.
  - right. left. unfold st', onSearchGroups. rewrite Hsub, Hc, Hn. reflexivity.
  - unfold st', onSearchGroups. rewrite Hsub, Hc, Hn.
    destruct (ended _ && _); auto.
  - right. left. unfold st', onSearchGroups. rewrite Hsub, Hc, Hn. reflexivity.
Qed.

Lemma wf_onSearchGroups sid n (st : State) : wf st -> wf (onSearchGroups sid n st).
Proof.
  intros Hwf.
  destruct (onSearchGroups_shape sid n st)
    as [->|[->|[->|(sub & groups & Hsub & Hc & _ & [[_ ->]|[_ ->]])]]];
    [assumption|apply wf_fail, Hwf|apply wf_unsubscribe, Hwf| |];
    [|rewrite callAll_calls]; intros j sub' Hl Hc'; simpl in *;
    (destruct (decide (sid = j)) as [<-|Hne];
     [eauto|rewrite list_lookup_insert_ne in Hl by assumption; eauto]).
Qed.

Lemma wf_onLookups sid w (st : State) : wf st -> wf (onLookups sid w st).
Proof.
  intros Hwf. unfold onLookups.
  destruct (subscriptions st !! sid) as [sub|]; [|assumption].
  destruct (closed sub); [assumption|].
  destruct (inner sub) as [[deleted groups]|]; [|assumption].
  destruct (settle _); try assumption. apply wf_fail; assumption.
Qed.

Lemma wf_onDelete did n (st : State) : wf st -> wf (onDelete did n st).
Proof. intros Hwf. unfold onDelete. repeat case_match; exact Hwf. Qed.

Lemma wf_onBrowseEndpoint rid n (st : State) : wf st -> wf (onBrowseEndpoint rid n st).
Proof. intros Hwf. unfold onBrowseEndpoint. repeat case_match; exact Hwf. Qed.

Lemma wf_cleanupSubscribes (st : State) : wf st -> wf (cleanupSubscribes st).
Proof.
  unfold cleanupSubscribes. generalize (subs st) as l. intros l. revert st.
  induction l as [|sid l IH]; intros st Hwf; simpl; [assumption|].
  apply IH, wf_unsubscribe, Hwf.
Qed.

Lemma wf_step (e : Event) (st : State) : wf st -> wf (step e st).
Proof.
  intros Hwf. destruct e; cbn [step].
  - unfold ngOnInit. apply wf_search, Hwf.
  - unfold onPageChange. apply wf_search. revert Hwf. apply wf_frame; reflexivity.
  - apply wf_search, Hwf.
  - unfold clearFormAndResetResult. apply wf_search.
    revert Hwf. apply wf_frame; reflexivity.
  - unfold deleteGroup. destruct (id (group dto)); [|assumption].
    revert Hwf. apply wf_frame; reflexivity.
  - apply wf_cleanupSubscribes, Hwf.
  - apply wf_onSearchGroups, Hwf.
  - apply wf_onLookups, Hwf.
  - apply wf_onDelete, Hwf.
  - apply wf_onBrowseEndpoint, Hwf.
Qed.


Lemma wf_run (es : list Event) (st : State) : wf st -> wf (run es st).
Proof.
  revert st. induction es as [|e es IH]; intros st Hwf; simpl; [assumption|].
  apply IH, wf_step, Hwf.
Qed.

(** Whatever happens to the component, at most one search subscription is
    open, and [searchSub] refers to it. *)
Corollary wf_reachable (es : list Event) : wf (run es initial).
Proof. apply wf_run, wf_initial. Qed.

(** ** Superseded searches *)


Lemma submission_search (e : Event) (st : State) :
  submission e ->
  exists query pre,
    step e st = search query pre
    /\ subscriptions pre = subscriptions st
    /\ searchSub pre = searchSub st.
Proof.
  destruct e; intros He; try (exfalso; exact He); cbn [step].
  - exists (Some (currentSearchQuery st)), st. repeat split.
  - exists (Some (currentSearchQuery (set_currentPage event st))), (set_currentPage event st).
    repeat split.
  - exists query, st. repeat split.
  - exists (Some ""), (call (PatchSearchForm "") st). repeat split.
Qed.




Section NewestWins.
Variable w : Lookups.
Variable sid : nat.
Variable answer : RemoteData (PaginatedList Group).
Variable D : list string.
Variable groups : PaginatedList Group.
Variable value : PaginatedList GroupDtoModel.
Hypothesis Hanswer :
  settle (getAllSucceededRemoteDataPayload [Next answer]) = Emits (Some groups).
Hypothesis Hvalue : settle (assemble w D groups) = Emits value.





Lemma late_is_earlier (e : Event) :
  lateAnswer w sid answer e -> earlierAnswer sid answer D groups e.
Proof.
  destruct e; simpl; try exact (fun H => H).
  intros H Hs. rewrite (H Hs), Hvalue. discriminate.
Qed.






End NewestWins.




(** ** A failed search *)

(** A response that has not succeeded does not pass
    [getAllSucceededRemoteDataPayload]: the callback is not reached. *)
Lemma onSearchGroups_not_succeeded (sid : nat) (rd : RemoteData (PaginatedList Group))
    (st : State) :
  hasSucceeded rd = false -> onSearchGroups sid (Next rd) st = st.
Proof.
  intros Hrd. unfold onSearchGroups.
  destruct (subscriptions st !! sid) as [sub|]; [|reflexivity].
  destruct (closed sub); [reflexivity|].
  unfold getAllSucceededRemoteDataPayload. simpl. rewrite Hrd. reflexivity.
Qed.

(** C2, as the code has it: a failed response of the gateway reaches no
    callback, so the search that waits for it leaves the component as it
    was when the search was submitted: nothing is published, the view is
    the one before, the busy flag stays raised, and no call (so no
    notification) is made. An error of the gateway's stream ends the
    subscription unhandled: the view is kept, the busy flag stays raised,
    and the only call made is the report of the uncaught error. *)
Theorem failed_search_keeps_view_and_busy (query : option string) (st : State)
    (sid : nat) (rd : RemoteData (PaginatedList Group)) :
  hasSucceeded rd = false ->
  let st1 := search query st in
  searchSub st1 = Some sid ->
  let st2 := onSearchGroups sid (Next rd) st1 in
  let st3 := onSearchGroups sid Error st1 in
  (st2 = st1
   /\ groupsDto st2 = groupsDto st
   /\ pageInfoState st2 = pageInfoState st
   /\ searching st2 = true
   /\ calls st2 = calls st1)
  /\ (groupsDto st3 = groupsDto st
      /\ pageInfoState st3 = pageInfoState st
      /\ searching st3 = true
      /\ calls st3 = calls st1 ++ [UncaughtError]).
Proof.
  intros Hrd st1 Hsid st2 st3.
  destruct (search_frame query st) as (Hbusy & Hdto & Hpi & _).
  pose proof (search_new_subscription query st) as Hnew.
  destruct (search_frame query st) as (_ & _ & _ & _ & _ & _ & _ & Hsub & _).
  fold st1 in Hbusy, Hdto, Hpi, Hnew, Hsub.
  assert (Hst2 : st2 = st1) by (apply onSearchGroups_not_succeeded, Hrd).
  split.
  - rewrite Hst2. repeat split; assumption.
  - assert (Hst3 : st3 = fail sid st1).
    { unfold st3, onSearchGroups. rewrite Hsub in Hsid. injection Hsid as <-.
      rewrite Hnew. reflexivity. }
    rewrite Hst3. repeat split; assumption.
Qed.

Lemma failed_search_keeps_view_and_busy_witness :
  let st := run [NgOnInit; SearchGroupsAnswers 0 (Next (sampleGateway ("", 1, 5)));
                 LookupsAnswer 0 sampleLookups] initial in
  let st1 := search (Some "x") st in
  let st2 := onSearchGroups 1 (Next (failed "Internal Server Error")) st1 in
  let st3 := onSearchGroups 1 Error st1 in
  (st2 = st1
   /\ groupsDto st2 = groupsDto st
   /\ pageInfoState st2 = pageInfoState st
   /\ searching st2 = true
   /\ calls st2 = calls st1)
  /\ (groupsDto st3 = groupsDto st
      /\ pageInfoState st3 = pageInfoState st
      /\ searching st3 = true
      /\ calls st3 = calls st1 ++ [UncaughtError]).
Proof.
  apply (failed_search_keeps_view_and_busy (Some "x")
           (run [NgOnInit; SearchGroupsAnswers 0 (Next (sampleGateway ("", 1, 5)));
                 LookupsAnswer 0 sampleLookups] initial)
           1 (failed "Internal Server Error")); reflexivity.
Defined.

(** C2 as stated fails: the search for [x] gets a failed response, or an
    error of the gateway's stream; either way the busy flag is not lowered
    and nothing is notified. *)
Lemma failed_search_not_surfaced :
  let st1 := run [NgOnInit; SubmitSearch (Some "x")] initial in
  let st2 := step (SearchGroupsAnswers 1 (Next (failed "Internal Server Error"))) st1 in
  let st3 := step (SearchGroupsAnswers 1 Error) st1 in
  (searching st2 <> false
   /\ ~ (exists title content, In (NotifyError title content) (calls st2)))
  /\ (searching st3 <> false
      /\ ~ (exists title content, In (NotifyError title content) (calls st3))).
Proof.
  intros st1 st2 st3.
  assert (H2 : searching st2 = true
               /\ calls st2 = [SearchGroups "" 1 5;
                               NavigateByUrl getGroupRegistryRouterLink;
                               SearchGroups "x" 1 5])
    by (vm_compute; split; reflexivity).
  assert (H3 : searching st3 = true
               /\ calls st3 = [SearchGroups "" 1 5;
                               NavigateByUrl getGroupRegistryRouterLink;
                               SearchGroups "x" 1 5;
                               UncaughtError])
    by (vm_compute; split; reflexivity).
  destruct H2 as [-> ->], H3 as [-> ->].
  repeat split; try discriminate; intros (title & content & Hin); simpl in Hin;
    repeat (destruct Hin as [Hin|Hin]; [discriminate|]); exact Hin.
Qed.

(** ** Deletion *)

(** C7: when the deletion completes without success, the component
    notifies the failure, with the group's name in the title and the
    reported error message as the cause, and changes nothing else: the
    tombstoned ids, the pending endpoint lookups (no invalidation is
    started), the view, the query, the page and the search subscription are
    as before. *)
Theorem failed_deletion_only_notifies (st : State) (did : nat) (dto : GroupDtoModel)
    (rd : RemoteData unit) :
  deletions st !! did = Some (dto, false) ->
  hasCompleted rd = true -> hasSucceeded rd = false ->
  let st' := onDelete did (Next rd) st in
  calls st' = calls st ++
    [NotifyError
       (translate (messagePrefix +:+ "notification.deleted.failure.title")
          [("name", Some (name (group dto)))])
       (translate (messagePrefix +:+ "notification.deleted.failure.content")
          [("cause", errorMessage rd)])]
  /\ deletedGroupsIds st' = deletedGroupsIds st
  /\ resets st' = resets st
  /\ config st' = config st
  /\ groupsDto st' = groupsDto st
  /\ pageInfoState st' = pageInfoState st
  /\ searching st' = searching st
  /\ currentSearchQuery st' = currentSearchQuery st
  /\ searchSub st' = searchSub st
  /\ subs st' = subs st
  /\ subscriptions st' = subscriptions st.
Proof.
  intros Hd Hc Hs st'. unfold st', onDelete. rewrite Hd.
  unfold getFirstCompletedRemoteData. simpl. rewrite Hc. simpl. rewrite Hs.
  repeat split.
Qed.

Lemma failed_deletion_only_notifies_witness :
  let st := deleteGroup (sampleRow "A" true) initial in
  let st' := onDelete 0 (Next (failed "Forbidden")) st in
  calls st' = calls st ++
    [NotifyError
       (translate (messagePrefix +:+ "notification.deleted.failure.title")
          [("name", Some (name (group (sampleRow "A" true))))])
       (translate (messagePrefix +:+ "notification.deleted.failure.content")
          [("cause", errorMessage (failed (A := unit) "Forbidden"))])]
  /\ deletedGroupsIds st' = deletedGroupsIds st
  /\ resets st' = resets st
  /\ config st' = config st
  /\ groupsDto st' = groupsDto st
  /\ pageInfoState st' = pageInfoState st
  /\ searching st' = searching st
  /\ currentSearchQuery st' = currentSearchQuery st
  /\ searchSub st' = searchSub st
  /\ subs st' = subs st
  /\ subscriptions st' = subscriptions st.
Proof.
  apply (failed_deletion_only_notifies (deleteGroup (sampleRow "A" true) initial) 0
           (sampleRow "A" true) (failed "Forbidden")); reflexivity.
Defined.

(** C6, as the code has it: when the deletion succeeds, the group's id is
    added to the tombstoned ids, the success is notified with the group's
    name, and the browse endpoint of the groups is asked for; when it
    arrives, what is cached under it is set stale. The component submits
    no search of its own: no gateway search is called, and the busy flag,
    the query, the page and the search subscription stay as they are, also
    after the endpoint has arrived. *)
Theorem deletion_tombstones_and_invalidates (st : State) (did : nat) (dto : GroupDtoModel)
    (i : string) (rd : RemoteData unit) (href : string) :
  deletions st !! did = Some (dto, false) ->
  id (group dto) = Some i ->
  hasSucceeded rd = true ->
  let st' := onDelete did (Next rd) st in
  let st'' := onBrowseEndpoint (List.length (resets st)) (Next href) st' in
  deletedGroupsIds st' = deletedGroupsIds st ++ [i]
  /\ calls st' = calls st ++
       [NotifySuccess
          (translate (messagePrefix +:+ "notification.deleted.success")
             [("name", Some (name (group dto)))]);
        GetBrowseEndpoint]
  /\ resets st' = resets st ++ [false]
  /\ calls st'' = calls st' ++ [SetStaleByHrefSubstring href]
  /\ deletedGroupsIds st'' = deletedGroupsIds st'
  /\ (searching st'' = searching st
      /\ config st'' = config st
      /\ currentSearchQuery st'' = currentSearchQuery st
      /\ searchSub st'' = searchSub st
      /\ subs st'' = subs st
      /\ subscriptions st'' = subscriptions st
      /\ groupsDto st'' = groupsDto st
      /\ pageInfoState st'' = pageInfoState st).
Proof.
  intros Hd Hi Hs st' st''.
  assert (Hc : hasCompleted rd = true).
  { unfold hasSucceeded in Hs. unfold hasCompleted. destruct (state rd); congruence. }
  assert (Hst' : st' =
    reset (call (NotifySuccess
                   (translate (messagePrefix +:+ "notification.deleted.success")
                      [("name", Some (name (group dto)))]))
             (set_deletedGroupsIds (deletedGroupsIds st ++ [i])
                (set_deletions (<[did := (dto, true)]> (deletions st)) st)))).
  { unfold st', onDelete. rewrite Hd.
    unfold getFirstCompletedRemoteData. simpl. rewrite Hc. simpl. rewrite Hs, Hi.
    reflexivity. }
  assert (Hst'' : st'' =
    call (SetStaleByHrefSubstring href)
      (set_resets (<[List.length (resets st) := true]> (resets st')) st')).
  { unfold st'', onBrowseEndpoint. rewrite Hst'. simpl.
    rewrite list_lookup_middle by reflexivity. reflexivity. }
  rewrite Hst''. rewrite Hst'. simpl. rewrite <- app_assoc. repeat split.
Qed.

Lemma deletion_tombstones_and_invalidates_witness :
  let st := deleteGroup (sampleRow "A" true) initial in
  let st' := onDelete 0 (Next (succeeded tt)) st in
  let st'' := onBrowseEndpoint (List.length (resets st)) (Next "/api/eperson/groups") st' in
  deletedGroupsIds st' = deletedGroupsIds st ++ ["A"]
  /\ calls st' = calls st ++
       [NotifySuccess
          (translate (messagePrefix +:+ "notification.deleted.success")
             [("name", Some (name (group (sampleRow "A" true))))]);
        GetBrowseEndpoint]
  /\ resets st' = resets st ++ [false]
  /\ calls st'' = calls st' ++ [SetStaleByHrefSubstring "/api/eperson/groups"]
  /\ deletedGroupsIds st'' = deletedGroupsIds st'
  /\ (searching st'' = searching st
      /\ config st'' = config st
      /\ currentSearchQuery st'' = currentSearchQuery st
      /\ searchSub st'' = searchSub st
      /\ subs st'' = subs st
      /\ subscriptions st'' = subscriptions st
      /\ groupsDto st'' = groupsDto st
      /\ pageInfoState st'' = pageInfoState st).
Proof.
  apply (deletion_tombstones_and_invalidates (deleteGroup (sampleRow "A" true) initial) 0
           (sampleRow "A" true) "A" (succeeded tt) "/api/eperson/groups"); reflexivity.
Defined.

(** C6 as stated fails: after the deletion of A has succeeded and the
    endpoint has arrived, the component has called no gateway search, and
    the busy flag and the search subscription are those of the search
    before. *)
Lemma deletion_submits_no_search :
  let st := run [NgOnInit; SearchGroupsAnswers 0 (Next (sampleGateway ("", 1, 5)));
                 LookupsAnswer 0 sampleLookups] initial in
  let st' := run [DeleteGroup (sampleRow "A" true);
                  DeleteAnswers 0 (Next (succeeded tt));
                  BrowseEndpointAnswers 0 (Next "/api/eperson/groups")] st in
  ~ (exists q p s pre post, calls st' = calls st ++ pre ++ SearchGroups q p s :: post)
  /\ searching st' <> true
  /\ searchSub st' = searchSub st.
Proof.
  intros st st'. split; [|split].
  - intros (q & p & s & pre & post & H).
    assert (E : calls st' = calls st ++
              [DeleteById "A";
               NotifySuccess
                 (translate (messagePrefix +:+ "notification.deleted.success")
                    [("name", Some "group A")]);
               GetBrowseEndpoint;
               SetStaleByHrefSubstring "/api/eperson/groups"]) by reflexivity.
    rewrite E in H. apply app_inv_head in H.
    assert (Hin : In (SearchGroups q p s)
                    [DeleteById "A";
                     NotifySuccess
                       (translate (messagePrefix +:+ "notification.deleted.success")
                          [("name", Some "group A")]);
                     GetBrowseEndpoint;
                     SetStaleByHrefSubstring "/api/eperson/groups"]).
    { rewrite H. apply in_elt. }
    simpl in Hin. repeat (destruct Hin as [Hin|Hin]; [discriminate|]). exact Hin.
  - vm_compute. discriminate.
  - reflexivity.
Qed.

(** C3 on the code: A is deleted and tombstoned; the gateway then lists A
    and B once more. The page assembly hands [undefined] to
    [combineLatest] for A and delivers nothing, so the view is still the
    one with the row of A: the page without A is never published. *)
Example tombstoned_page_is_withheld :
  let st := run [NgOnInit; SearchGroupsAnswers 0 (Next (sampleGateway ("", 1, 5)));
                 LookupsAnswer 0 sampleLookups;
                 DeleteGroup (sampleRow "A" true);
                 DeleteAnswers 0 (Next (succeeded tt));
                 BrowseEndpointAnswers 0 (Next "/api/eperson/groups")] initial in
  let st' := run [SearchGroupsAnswers 0 (Next (sampleGateway ("", 1, 5)));
                  LookupsAnswer 0 sampleLookups] st in
  deletedGroupsIds st = ["A"]
  /\ rowStreams sampleLookups (deletedGroupsIds st) (samplePage ["A"; "B"]) =
       [None; Some (enrich sampleLookups (sampleGroup "B"))]
  /\ (forall value,
        settle (assemble sampleLookups (deletedGroupsIds st) (samplePage ["A"; "B"])) <>
          Emits value)
  /\ groupsDto st' =
       Some (buildPaginatedList (samplePageInfo 2)
               [sampleRow "A" true; sampleRow "B" false])
  /\ groupsDto st' <>
       Some (buildPaginatedList (samplePageInfo 2) [sampleRow "B" false]).
Proof.
  intros st st'. repeat split.
  - intros value. vm_compute. discriminate.
  - vm_compute. discriminate.
Qed.

(** ** Teardown *)

(** Closing subscriptions touches the subscription objects only. *)
Lemma unsubscribe_all_frame (l : list nat) (st : State) :
  let st' := fold_left (fun s sid => unsubscribe sid s) l st in
  config st' = config st
  /\ groupsDto st' = groupsDto st
  /\ deletedGroupsIds st' = deletedGroupsIds st
  /\ pageInfoState st' = pageInfoState st
  /\ searching st' = searching st
  /\ currentSearchQuery st' = currentSearchQuery st
  /\ searchSub st' = searchSub st
  /\ subs st' = subs st
  /\ deletions st' = deletions st
  /\ resets st' = resets st
  /\ calls st' = calls st.
Proof.
  revert st. induction l as [|sid l IH]; intros st; simpl; [repeat split|].
  apply (IH (unsubscribe sid st)).
Qed.

Lemma unsubscribe_all_open (l : list nat) (st : State) (j : nat) (sub' : Subscription) :
  subscriptions (fold_left (fun s sid => unsubscribe sid s) l st) !! j = Some sub' ->
  closed sub' = false ->
  ~ In j l /\ subscriptions st !! j = Some sub'.
Proof.
  revert st. induction l as [|sid l IH]; intros st Hl Hc; simpl in *; [auto|].
  destruct (IH _ Hl Hc) as [Hnin Hl'].
  apply lookup_alter_close_open in Hl' as [Hne Hl']; [|assumption].
  split; [|assumption]. intros [->|Hin]; contradiction.
Qed.

(** [subs] holds the current search subscription and nothing else. *)
Lemma subs_search (query : option string) (st : State) :
  subs st = match searchSub st with Some s => [s] | None => [] end ->
  subs (search query st) = [List.length (subscriptions st)].
Proof.
  intros Hsubs. unfold search.
  destruct query as [q|]; [destruct (negb (String.eqb (currentSearchQuery _) q))|];
    destruct st as [cfg dto del pi sr cq [old|] sb sbs dls rs cs]; simpl in *;
    subst sb; simpl; rewrite ?Nat.eqb_refl, ?length_alter; reflexivity.
Qed.

Lemma subs_step (e : Event) (st : State) :
  subs st = match searchSub st with Some s => [s] | None => [] end ->
  subs (step e st) = match searchSub (step e st) with Some s => [s] | None => [] end.
Proof.
  intros H. destruct e; cbn [step].
  - unfold ngOnInit. rewrite subs_search by exact H.
    destruct (search_frame (Some (currentSearchQuery st)) st)
      as (_ & _ & _ & _ & _ & _ & _ & -> & _). reflexivity.
  - unfold onPageChange.
    rewrite (subs_search _ (set_currentPage event st)) by exact H.
    destruct (search_frame (Some (currentSearchQuery (set_currentPage event st)))
                (set_currentPage event st)) as (_ & _ & _ & _ & _ & _ & _ & -> & _).
    reflexivity.
  - rewrite subs_search by exact H.
    destruct (search_frame query st) as (_ & _ & _ & _ & _ & _ & _ & -> & _). reflexivity.
  - unfold clearFormAndResetResult.
    rewrite (subs_search _ (call (PatchSearchForm "") st)) by exact H.
    destruct (search_frame (Some "") (call (PatchSearchForm "") st))
      as (_ & _ & _ & _ & _ & _ & _ & -> & _). reflexivity.
  - unfold deleteGroup. destruct (id (group dto)); exact H.
  - unfold ngOnDestroy, cleanupSubscribes.
    destruct (unsubscribe_all_frame (subs st) st)
      as (_ & _ & _ & _ & _ & _ & -> & -> & _). exact H.
  - destruct (onSearchGroups_shape sid n st)
      as [->|[->|[->|(sub & groups & _ & _ & _ & [[_ ->]|[_ ->]])]]]; try exact H.
    rewrite callAll_calls. exact H.
  - unfold onLookups.
    destruct (subscriptions st !! sid) as [sub|]; [|exact H].
    destruct (closed sub); [exact H|].
    destruct (inner sub) as [[deleted groups]|]; [|exact H].
    destruct (settle _); exact H.
  - unfold onDelete.
    destruct (deletions st !! did) as [[dto [|]]|]; try exact H.
    destruct (settle _) as [rd| |]; try exact H.
    destruct (hasSucceeded rd); exact H.
  - unfold onBrowseEndpoint.
    destruct (resets st !! rid) as [[|]|]; try exact H.
    destruct (settle _); exact H.
Qed.

Lemma subs_run (es : list Event) (st : State) :
  subs st = match searchSub st with Some s => [s] | None => [] end ->
  subs (run es st) = match searchSub (run es st) with Some s => [s] | None => [] end.
Proof.
  revert st. induction es as [|e es IH]; intros st H; simpl; [exact H|].
  apply IH, subs_step, H.
Qed.

(** X1: however the component got where it is, every search subscription
    that is still open is the one [searchSub] refers to: there is never
    more than one live search. *)
Theorem reachable_one_open_subscription (es : list Event) (sid : nat) (sub : Subscription) :
  subscriptions (run es initial) !! sid = Some sub ->
  closed sub = false ->
  searchSub (run es initial) = Some sid.
Proof. apply wf_reachable. Qed.

Lemma reachable_one_open_subscription_witness :
  searchSub (run [NgOnInit; OnPageChange 2; SubmitSearch (Some "alice")] initial) = Some 2.
Proof.
  apply (reachable_one_open_subscription
           [NgOnInit; OnPageChange 2; SubmitSearch (Some "alice")] 2
           {| closed := false; request := ("alice", 1, 5); inner := None |});
    reflexivity.
Defined.

(** X2: the list of subscriptions to release holds exactly the current
    search subscription: each search drops the one it replaces, so the list
    does not grow with the number of searches. *)
Theorem subs_holds_current_search_only (es : list Event) :
  subs (run es initial) =
    match searchSub (run es initial) with Some s => [s] | None => [] end.
Proof. apply subs_run. reflexivity. Qed.

(** X3: after [ngOnDestroy] no search subscription is open, so no answer
    of the gateway or of the row lookups changes the component any more:
    nothing is published after teardown. *)
Theorem destroy_silences_search (es : list Event) (sid : nat)
    (n : Notification (RemoteData (PaginatedList Group))) (w : Lookups) :
  let st := ngOnDestroy (run es initial) in
  (forall j sub, subscriptions st !! j = Some sub -> closed sub = true)
  /\ onSearchGroups sid n st = st
  /\ onLookups sid w st = st.
Proof.
  intros st.
  assert (Hall : forall j sub, subscriptions st !! j = Some sub -> closed sub = true).
  { intros j sub Hl. destruct (closed sub) eqn:Hc; [reflexivity|]. exfalso.
    unfold st, ngOnDestroy, cleanupSubscribes in Hl.
    apply unsubscribe_all_open in Hl as [Hnin Hl]; [|assumption].
    pose proof (wf_reachable es j sub Hl Hc) as Hcur.
    rewrite (subs_run es initial eq_refl), Hcur in Hnin. apply Hnin. now left. }
  split; [exact Hall|]. split.
  - unfold onSearchGroups. destruct (subscriptions st !! sid) as [sub|] eqn:Hl; [|reflexivity].
    rewrite (Hall _ _ Hl). reflexivity.
  - unfold onLookups. destruct (subscriptions st !! sid) as [sub|] eqn:Hl; [|reflexivity].
    rewrite (Hall _ _ Hl). reflexivity.
Qed.

(** ** What each callback leaves alone *)

Lemma onSearchGroups_frame sid n (st : State) :
  let st' := onSearchGroups sid n st in
  config st' = config st
  /\ deletedGroupsIds st' = deletedGroupsIds st
  /\ currentSearchQuery st' = currentSearchQuery st
  /\ searchSub st' = searchSub st
  /\ subs st' = subs st
  /\ deletions st' = deletions st
  /\ resets st' = resets st
  /\ exists more, calls st' = calls st ++ more.
Proof.
  destruct (onSearchGroups_shape sid n st)
    as [->|[->|[->|(sub & groups & _ & _ & _ & [[_ ->]|[_ ->]])]]];
    try rewrite callAll_calls; simpl;
    repeat split; eauto; exists []; symmetry; apply app_nil_r.
Qed.

Lemma onLookups_frame sid w (st : State) :
  let st' := onLookups sid w st in
  config st' = config st
  /\ deletedGroupsIds st' = deletedGroupsIds st
  /\ currentSearchQuery st' = currentSearchQuery st
  /\ searchSub st' = searchSub st
  /\ subs st' = subs st
  /\ deletions st' = deletions st
  /\ resets st' = resets st
  /\ exists more, calls st' = calls st ++ more.
Proof.
  unfold onLookups.
  destruct (subscriptions st !! sid) as [sub|];
    [|repeat split; exists []; symmetry; apply app_nil_r].
  destruct (closed sub); [repeat split; exists []; symmetry; apply app_nil_r|].
  destruct (inner sub) as [[deleted groups]|];
    [|repeat split; exists []; symmetry; apply app_nil_r].
  destruct (settle _); simpl; repeat split; eauto; exists []; symmetry; apply app_nil_r.
Qed.

Lemma onDelete_frame did n (st : State) :
  let st' := onDelete did n st in
  config st' = config st
  /\ groupsDto st' = groupsDto st
  /\ pageInfoState st' = pageInfoState st
  /\ searching st' = searching st
  /\ currentSearchQuery st' = currentSearchQuery st
  /\ searchSub st' = searchSub st
  /\ subs st' = subs st
  /\ subscriptions st' = subscriptions st
  /\ exists more, calls st' = calls st ++ more.
Proof.
  unfold onDelete.
  destruct (deletions st !! did) as [[dto [|]]|];
    try (repeat split; exists []; symmetry; apply app_nil_r).
  destruct (settle _) as [rd| |];
    [destruct (hasSucceeded rd)| |]; simpl; rewrite <- ?app_assoc;
    repeat split; eauto; exists []; symmetry; apply app_nil_r.
Qed.

Lemma onBrowseEndpoint_frame rid n (st : State) :
  let st' := onBrowseEndpoint rid n st in
  config st' = config st
  /\ groupsDto st' = groupsDto st
  /\ deletedGroupsIds st' = deletedGroupsIds st
  /\ pageInfoState st' = pageInfoState st
  /\ searching st' = searching st
  /\ currentSearchQuery st' = currentSearchQuery st
  /\ searchSub st' = searchSub st
  /\ subs st' = subs st
  /\ subscriptions st' = subscriptions st
  /\ deletions st' = deletions st
  /\ exists more, calls st' = calls st ++ more.
Proof.
  unfold onBrowseEndpoint.
  destruct (resets st !! rid) as [[|]|];
    try (repeat split; exists []; symmetry; apply app_nil_r).
  destruct (settle _); simpl; repeat split; eauto; exists []; symmetry; apply app_nil_r.
Qed.

(** A deletion whose first completed response is [rd]. *)
Lemma onDelete_completed did dto (rd : RemoteData unit) (st : State) :
  deletions st !! did = Some (dto, false) -> hasCompleted rd = true ->
  onDelete did (Next rd) st =
    let st1 := set_deletions (<[did := (dto, true)]> (deletions st)) st in
    if hasSucceeded rd then
      reset (call (NotifySuccess
                     (translate (messagePrefix +:+ "notification.deleted.success")
                        [("name", Some (name (group dto)))]))
               (set_deletedGroupsIds
                  (tombstone (id (group dto)) (deletedGroupsIds st1)) st1))
    else
      call (NotifyError
              (translate (messagePrefix +:+ "notification.deleted.failure.title")
                 [("name", Some (name (group dto)))])
              (translate (messagePrefix +:+ "notification.deleted.failure.content")
                 [("cause", errorMessage rd)])) st1.
Proof.
  intros Hd Hc. unfold onDelete. rewrite Hd.
  unfold getFirstCompletedRemoteData. simpl. rewrite Hc. reflexivity.
Qed.

(** ** What each event leaves alone *)

(** Every event that submits a search is [search] on a state that differs
    from the one before in the page or the calls only. *)
Lemma submission_search_frame (e : Event) (st : State) :
  submission e ->
  exists query pre,
    step e st = search query pre
    /\ groupsDto pre = groupsDto st
    /\ pageInfoState pre = pageInfoState st
    /\ deletedGroupsIds pre = deletedGroupsIds st
    /\ deletions pre = deletions st
    /\ resets pre = resets st
    /\ exists more, calls pre = calls st ++ more.
Proof.
  destruct e; intros He; try (exfalso; exact He); cbn [step].
  - exists (Some (currentSearchQuery st)), st. repeat split.
    exists []. symmetry. apply app_nil_r.
  - exists (Some (currentSearchQuery (set_currentPage event st))), (set_currentPage event st).
    repeat split. exists []. symmetry. apply app_nil_r.
  - exists query, st. repeat split. exists []. symmetry. apply app_nil_r.
  - exists (Some ""), (call (PatchSearchForm "") st). repeat split. eexists. reflexivity.
Qed.

(** When the step in the goal submits a search: name the query and the
    state [search] runs on. *)
Ltac submitted st query pre H :=
  match goal with
  | |- context [step ?e st] =>
      destruct (submission_search_frame e st I) as (query & pre & -> & H)
  end.

Ltac submitted_in Hl :=
  match type of Hl with
  | context [step ?e ?st] =>
      let q := fresh "q" in
      let pre := fresh "pre" in
      let H := fresh "H" in
      destruct (submission_search_frame e st I) as (q & pre & H & _);
      rewrite H in Hl
  end.

Lemma step_calls_grow (e : Event) (st : State) :
  exists more, calls (step e st) = calls st ++ more.
Proof.
  destruct e;
    try (submitted st q0 pre H; destruct H as (_ & _ & _ & _ & _ & more & Hpre);
         destruct (search_query q0 pre) as (_ & _ & ->);
         rewrite Hpre, <- app_assoc; eexists; reflexivity);
    cbn [step].
  - unfold deleteGroup. destruct (id (group dto)); simpl; [eexists; reflexivity|].
    exists []. symmetry. apply app_nil_r.
  - unfold ngOnDestroy, cleanupSubscribes.
    destruct (unsubscribe_all_frame (subs st) st)
      as (_ & _ & _ & _ & _ & _ & _ & _ & _ & _ & ->).
    exists []. symmetry. apply app_nil_r.
  - apply onSearchGroups_frame.
  - apply onLookups_frame.
  - apply onDelete_frame.
  - apply onBrowseEndpoint_frame.
Qed.

(** Only an answer of the search pipe touches the published view. *)
Lemma step_view_frame (e : Event) (st : State) :
  match e with
  | SearchGroupsAnswers _ _ | LookupsAnswer _ _ => True
  | _ => groupsDto (step e st) = groupsDto st
         /\ pageInfoState (step e st) = pageInfoState st
  end.
Proof.
  destruct e;
    try (submitted st q0 pre H; destruct H as (Hd & Hp & _);
         destruct (search_frame q0 pre) as (_ & -> & -> & _); auto);
    cbn [step].
  - unfold deleteGroup. destruct (id (group dto)); auto.
  - unfold ngOnDestroy, cleanupSubscribes.
    destruct (unsubscribe_all_frame (subs st) st) as (_ & -> & _ & -> & _). auto.
  - exact I.
  - exact I.
  - destruct (onDelete_frame did n st) as (_ & -> & -> & _). auto.
  - destruct (onBrowseEndpoint_frame rid n st) as (_ & -> & _ & -> & _). auto.
Qed.

(** Only [deleteGroup] and the answer to a deletion touch the pending
    deletions and the tombstoned ids. *)
Lemma step_deletion_frame (e : Event) (st : State) :
  match e with
  | DeleteGroup _ | DeleteAnswers _ _ => True
  | _ => deletedGroupsIds (step e st) = deletedGroupsIds st
         /\ deletions (step e st) = deletions st
  end.
Proof.
  destruct e;
    try (submitted st q0 pre H; destruct H as (_ & _ & Hd & Hdl & _);
         destruct (search_frame q0 pre) as (_ & _ & _ & -> & -> & _); auto);
    cbn [step]; try exact I.
  - unfold ngOnDestroy, cleanupSubscribes.
    destruct (unsubscribe_all_frame (subs st) st)
      as (_ & _ & -> & _ & _ & _ & _ & _ & -> & _). auto.
  - destruct (onSearchGroups_frame sid n st) as (_ & -> & _ & _ & _ & -> & _). auto.
  - destruct (onLookups_frame sid w st) as (_ & -> & _ & _ & _ & -> & _). auto.
  - destruct (onBrowseEndpoint_frame rid n st)
      as (_ & _ & -> & _ & _ & _ & _ & _ & _ & -> & _). auto.
Qed.

(** ** Deletion: answers, tombstones, teardown *)

(** X4: [ngOnDestroy] releases the search subscription only. A deletion
    that is still awaited is not cancelled: when its answer arrives after
    teardown, the group is tombstoned, the success is notified and the
    endpoint lookup is started all the same. *)
Theorem deletion_answer_outlives_destroy (st : State) (did : nat) (dto : GroupDtoModel)
    (i : string) (rd : RemoteData unit) :
  deletions st !! did = Some (dto, false) ->
  id (group dto) = Some i ->
  hasSucceeded rd = true ->
  let st' := onDelete did (Next rd) (ngOnDestroy st) in
  deletions (ngOnDestroy st) = deletions st
  /\ deletedGroupsIds st' = deletedGroupsIds st ++ [i]
  /\ calls st' = calls st ++
       [NotifySuccess
          (translate (messagePrefix +:+ "notification.deleted.success")
             [("name", Some (name (group dto)))]);
        GetBrowseEndpoint]
  /\ resets st' = resets st ++ [false].
Proof.
  intros Hd Hi Hs st'.
  destruct (unsubscribe_all_frame (subs st) st)
    as (_ & _ & Hdel & _ & _ & _ & _ & _ & Hdls & Hrs & Hcs).
  fold (cleanupSubscribes st) in Hdel, Hdls, Hrs, Hcs.
  fold (ngOnDestroy st) in Hdel, Hdls, Hrs, Hcs.
  assert (Hc : hasCompleted rd = true).
  { unfold hasSucceeded in Hs. unfold hasCompleted. destruct (state rd); congruence. }
  split; [exact Hdls|].
  unfold st'. rewrite (onDelete_completed did dto rd) by (rewrite ?Hdls; assumption).
  cbv zeta. rewrite Hs. simpl. rewrite Hi, Hdel, Hcs, Hrs. simpl.
  rewrite <- app_assoc. repeat split.
Qed.

Lemma deletion_answer_outlives_destroy_witness :
  let st := deleteGroup (sampleRow "A" true) (ngOnInit initial) in
  let st' := onDelete 0 (Next (succeeded tt)) (ngOnDestroy st) in
  deletions (ngOnDestroy st) = deletions st
  /\ deletedGroupsIds st' = deletedGroupsIds st ++ ["A"]
  /\ calls st' = calls st ++
       [NotifySuccess
          (translate (messagePrefix +:+ "notification.deleted.success")
             [("name", Some (name (group (sampleRow "A" true))))]);
        GetBrowseEndpoint]
  /\ resets st' = resets st ++ [false].
Proof.
  apply (deletion_answer_outlives_destroy
           (deleteGroup (sampleRow "A" true) (ngOnInit initial)) 0
           (sampleRow "A" true) "A" (succeeded tt)); reflexivity.
Defined.

(** X5: a deletion acts on its first completed response only: a response
    that is still pending is passed over, and whatever the stream delivers
    after the first completed response changes nothing, so a deletion
    notifies once and tombstones once. *)
Theorem deletion_answers_once (st : State) (did : nat) (dto : GroupDtoModel)
    (pending rd : RemoteData unit) (n : Notification (RemoteData unit)) :
  deletions st !! did = Some (dto, false) ->
  hasCompleted pending = false ->
  hasCompleted rd = true ->
  onDelete did (Next pending) st = st
  /\ onDelete did n (onDelete did (Next rd) st) = onDelete did (Next rd) st.
Proof.
  intros Hd Hp Hc. split.
  - unfold onDelete. rewrite Hd. unfold getFirstCompletedRemoteData. simpl.
    rewrite Hp. reflexivity.
  - assert (Hdone : deletions (onDelete did (Next rd) st) !! did = Some (dto, true)).
    { rewrite (onDelete_completed did dto rd) by assumption. cbv zeta.
      destruct (hasSucceeded rd); simpl; apply list_lookup_insert_eq;
        eapply lookup_lt_Some; eassumption. }
    unfold onDelete at 1. rewrite Hdone. reflexivity.
Qed.

Lemma deletion_answers_once_witness :
  let st := deleteGroup (sampleRow "A" true) initial in
  onDelete 0 (Next {| state := ResponsePending; errorMessage := None; payload := None |}) st = st
  /\ onDelete 0 (Next (failed "late")) (onDelete 0 (Next (succeeded tt)) st) =
       onDelete 0 (Next (succeeded tt)) st.
Proof.
  apply (deletion_answers_once (deleteGroup (sampleRow "A" true) initial) 0
           (sampleRow "A" true)
           {| state := ResponsePending; errorMessage := None; payload := None |}
           (succeeded tt) (Next (failed "late"))); reflexivity.
Defined.

(** X6: [reset] takes one value of the browse endpoint: the first one sets
    the cache stale, and whatever the endpoint stream delivers afterwards
    changes nothing. *)
Theorem reset_invalidates_once (st : State) (rid : nat) (href : string)
    (n : Notification string) :
  resets st !! rid = Some false ->
  calls (onBrowseEndpoint rid (Next href) st) = calls st ++ [SetStaleByHrefSubstring href]
  /\ onBrowseEndpoint rid n (onBrowseEndpoint rid (Next href) st) =
       onBrowseEndpoint rid (Next href) st.
Proof.
  intros Hr.
  assert (Hfirst : onBrowseEndpoint rid (Next href) st =
            call (SetStaleByHrefSubstring href)
              (set_resets (<[rid := true]> (resets st)) st)).
  { unfold onBrowseEndpoint. rewrite Hr. reflexivity. }
  split; [rewrite Hfirst; reflexivity|].
  assert (Hdone : resets (onBrowseEndpoint rid (Next href) st) !! rid = Some true).
  { rewrite Hfirst. simpl. apply list_lookup_insert_eq. eapply lookup_lt_Some; eassumption. }
  unfold onBrowseEndpoint at 1. rewrite Hdone. reflexivity.
Qed.

Lemma reset_invalidates_once_witness :
  calls (onBrowseEndpoint 0 (Next "/api/eperson/groups") (reset initial)) =
    calls (reset initial) ++ [SetStaleByHrefSubstring "/api/eperson/groups"]
  /\ onBrowseEndpoint 0 (Next "/other")
       (onBrowseEndpoint 0 (Next "/api/eperson/groups") (reset initial)) =
     onBrowseEndpoint 0 (Next "/api/eperson/groups") (reset initial).
Proof.
  apply (reset_invalidates_once (reset initial) 0 "/api/eperson/groups" (Next "/other")).
  reflexivity.
Defined.

Lemma step_tombstones (e : Event) (st : State) :
  exists more, deletedGroupsIds (step e st) = deletedGroupsIds st ++ more.
Proof.
  pose proof (step_deletion_frame e st) as H.
  destruct e; try exact I;
    try (rewrite (proj1 H); exists []; symmetry; apply app_nil_r);
    cbn [step].
  - unfold deleteGroup. destruct (id (group dto)); exists []; symmetry; apply app_nil_r.
  - unfold onDelete.
    destruct (deletions st !! did) as [[dto [|]]|];
      try (exists []; symmetry; apply app_nil_r).
    destruct (settle _) as [rd| |]; try (exists []; symmetry; apply app_nil_r).
    destruct (hasSucceeded rd); [|exists []; symmetry; apply app_nil_r].
    simpl. destruct (id (group dto)); simpl; [eexists; reflexivity|].
    exists []. symmetry. apply app_nil_r.
Qed.

(** X7: the tombstoned ids only grow: no search, page change, clearing,
    answer or teardown removes or reorders an id once it is tombstoned. *)
Theorem tombstones_only_grow (es : list Event) (st : State) :
  exists more, deletedGroupsIds (run es st) = deletedGroupsIds st ++ more.
Proof.
  revert st. induction es as [|e es IH]; intros st; simpl.
  - exists []. symmetry. apply app_nil_r.
  - destruct (IH (step e st)) as (more2 & H2).
    destruct (step_tombstones e st) as (more1 & H1).
    exists (more1 ++ more2).
    change (fold_left (fun s e0 => step e0 s) es (step e st)) with (run es (step e st)).
    rewrite H2, H1, app_assoc. reflexivity.
Qed.

Lemma accounted_mono (st st' : State) :
  deletedGroupsIds st' = deletedGroupsIds st ->
  deletions st' = deletions st ->
  (exists more, calls st' = calls st ++ more) ->
  accounted st -> accounted st'.
Proof.
  intros Hd Hdl (more & Hc) (H1 & H2). split.
  - intros i Hi. rewrite Hd in Hi. rewrite Hc. apply in_or_app. left. auto.
  - intros did dto b Hl. rewrite Hdl in Hl. destruct (H2 _ _ _ Hl) as (i & Hi & Hin).
    exists i. split; [assumption|]. rewrite Hc. apply in_or_app. now left.
Qed.

Lemma accounted_deleteGroup dto (st : State) : accounted st -> accounted (deleteGroup dto st).
Proof.
  intros (H1 & H2). unfold deleteGroup.
  destruct (id (group dto)) as [i|] eqn:Hi; [|split; assumption].
  split; simpl.
  - intros j Hj. apply in_or_app. left. auto.
  - intros did dto' b Hl. apply lookup_snoc_Some in Hl as [[_ Hl]|[_ Heq]].
    + destruct (H2 _ _ _ Hl) as (j & Hj & Hin). exists j. split; [assumption|].
      apply in_or_app. now left.
    + injection Heq as <- <-. exists i. split; [assumption|].
      apply in_or_app. right. now left.
Qed.

Lemma accounted_onDelete did n (st : State) : accounted st -> accounted (onDelete did n st).
Proof.
  intros Hacc. pose proof Hacc as (H1 & H2). unfold onDelete.
  destruct (deletions st !! did) as [[dto [|]]|] eqn:Hd; try assumption.
  destruct (H2 _ _ _ Hd) as (i & Hi & Hin).
  assert (Hins : forall did' dto' b,
            <[did := (dto, true)]> (deletions st) !! did' = Some (dto', b) ->
            exists j, id (group dto') = Some j /\ In (DeleteById j) (calls st)).
  { intros did' dto' b Hl. destruct (decide (did = did')) as [<-|Hne].
    - rewrite list_lookup_insert_eq in Hl by (eapply lookup_lt_Some; eassumption).
      injection Hl as <- <-. eauto.
    - rewrite list_lookup_insert_ne in Hl by assumption. eauto. }
  destruct (settle _) as [rd| |]; [destruct (hasSucceeded rd)| |]; try assumption;
    split; simpl; rewrite ?Hi; simpl.
  - intros j Hj. repeat (apply in_or_app; left).
    apply in_app_or in Hj as [Hj|[<-|[]]]; [auto|assumption].
  - intros did' dto' b Hl. destruct (Hins _ _ _ Hl) as (j & Hj & Hjn).
    exists j. split; [assumption|]. repeat (apply in_or_app; left). assumption.
  - intros j Hj. repeat (apply in_or_app; left). auto.
  - intros did' dto' b Hl. destruct (Hins _ _ _ Hl) as (j & Hj & Hjn).
    exists j. split; [assumption|]. repeat (apply in_or_app; left). assumption.
  - intros j Hj. repeat (apply in_or_app; left). auto.
  - intros did' dto' b Hl. destruct (Hins _ _ _ Hl) as (j & Hj & Hjn).
    exists j. split; [assumption|]. repeat (apply in_or_app; left). assumption.
Qed.

Lemma accounted_step (e : Event) (st : State) : accounted st -> accounted (step e st).
Proof.
  pose proof (step_deletion_frame e st) as H.
  pose proof (step_calls_grow e st) as Hc.
  destruct e;
    try (apply accounted_mono; [exact (proj1 H)|exact (proj2 H)|assumption]);
    cbn [step].
  - apply accounted_deleteGroup.
  - apply accounted_onDelete.
Qed.

(** X8: an id is tombstoned only for a group whose deletion the component
    asked for: every tombstoned id was the argument of a call of
    [groupService.delete]. *)
Theorem tombstoned_was_deleted (es : list Event) (i : string) :
  In i (deletedGroupsIds (run es initial)) ->
  In (DeleteById i) (calls (run es initial)).
Proof.
  assert (Hacc : forall es st, accounted st -> accounted (run es st)).
  { clear. induction es as [|e es IH]; intros st H; simpl; [exact H|].
    apply IH, accounted_step, H. }
  apply (Hacc es initial). split.
  - intros j [].
  - intros did dto b Hl. destruct did; discriminate.
Qed.

Lemma tombstoned_was_deleted_witness :
  In (DeleteById "A")
    (calls (run [NgOnInit; DeleteGroup (sampleRow "A" true);
                 DeleteAnswers 0 (Next (succeeded tt))] initial)).
Proof.
  apply (tombstoned_was_deleted
           [NgOnInit; DeleteGroup (sampleRow "A" true);
            DeleteAnswers 0 (Next (succeeded tt))] "A").
  vm_compute. left. reflexivity.
Defined.

(** ** The published view *)

Lemma view_step (e : Event) (st : State) :
  pageInfoState st = pageInfo <$> groupsDto st ->
  pageInfoState (step e st) = pageInfo <$> groupsDto (step e st).
Proof.
  intros Hv. pose proof (step_view_frame e st) as H.
  destruct e; try (rewrite (proj1 H), (proj2 H); exact Hv); cbn [step].
  - destruct (onSearchGroups_shape sid n st)
      as [->|[->|[->|(sub & groups & _ & _ & _ & [[_ ->]|[_ ->]])]]];
      try exact Hv; [reflexivity|].
    rewrite callAll_calls. exact Hv.
  - unfold onLookups.
    destruct (subscriptions st !! sid) as [sub|]; [|exact Hv].
    destruct (closed sub); [exact Hv|].
    destruct (inner sub) as [[deleted groups]|]; [|exact Hv].
    destruct (settle _); [reflexivity|exact Hv|exact Hv].
Qed.

(** X9: the pageInfo handed to the pagination component is always the
    pageInfo of the published list: both are unset until the first page is
    published, and they are never published apart. *)
Theorem pageInfo_follows_view (es : list Event) :
  pageInfoState (run es initial) = pageInfo <$> groupsDto (run es initial).
Proof.
  assert (H : forall es st, pageInfoState st = pageInfo <$> groupsDto st ->
                pageInfoState (run es st) = pageInfo <$> groupsDto (run es st)).
  { clear. induction es as [|e es IH]; intros st H; simpl; [exact H|].
    apply IH, view_step, H. }
  apply H. reflexivity.
Qed.

(** X10: the busy flag is lowered by one thing only: the callback that
    publishes a page, which runs when the lookups of a page answer, or when
    a page arrives that is empty. No other event, and no failure, lowers
    it. *)
Theorem busy_lowered_only_by_publishing (e : Event) (st : State) :
  searching st = true ->
  searching (step e st) = false ->
  exists sid value,
    published value (step e st)
    /\ ((exists w, e = LookupsAnswer sid w)
        \/ (exists rd groups,
              e = SearchGroupsAnswers sid (Next rd)
              /\ hasSucceeded rd = true /\ payload rd = Some groups
              /\ page groups = []
              /\ value = buildPaginatedList (pageInfo groups) [])).
Proof.
  intros Hb Hl.
  destruct e;
    try (submitted_in Hl;
         match type of Hl with
         | searching (search ?q ?pre) = false =>
             rewrite (proj1 (search_frame q pre)) in Hl; discriminate
         end);
    cbn [step] in *.
  - unfold deleteGroup in Hl. destruct (id (group dto)); simpl in Hl; congruence.
  - unfold ngOnDestroy, cleanupSubscribes in Hl.
    destruct (unsubscribe_all_frame (subs st) st) as (_ & _ & _ & _ & Hs & _).
    rewrite Hs in Hl. congruence.
  - exists sid.
    destruct (onSearchGroups_shape sid n st)
      as [H|[H|[H|(sub & groups & _ & _ & Hn & [[Hp H]|[_ H]])]]];
      rewrite H in *; try rewrite callAll_calls in Hl; simpl in Hl; try congruence.
    exists (buildPaginatedList (pageInfo groups) []). split; [repeat split|].
    right. destruct (settle_succeeded_inv n groups Hn) as (rd & -> & Hs & Hpl).
    exists rd, groups. repeat split; assumption.
  - exists sid. revert Hl. unfold onLookups.
    destruct (subscriptions st !! sid) as [sub|]; [|congruence].
    destruct (closed sub); [congruence|].
    destruct (inner sub) as [[deleted groups]|]; [|congruence].
    destruct (settle _) as [value| |]; [|congruence|simpl; congruence].
    intros _. exists value. split; [repeat split|]. left. exists w. reflexivity.
  - destruct (onDelete_frame did n st) as (_ & _ & _ & Hs & _).
    rewrite Hs in Hl. congruence.
  - destruct (onBrowseEndpoint_frame rid n st) as (_ & _ & _ & _ & Hs & _).
    rewrite Hs in Hl. congruence.
Qed.

Lemma busy_lowered_only_by_publishing_witness :
  exists sid value,
    published value
      (step (SearchGroupsAnswers 0 (Next (succeeded (samplePage [])))) (ngOnInit initial))
    /\ ((exists w, SearchGroupsAnswers 0 (Next (succeeded (samplePage []))) =
                   LookupsAnswer sid w)
        \/ (exists rd groups,
              SearchGroupsAnswers 0 (Next (succeeded (samplePage []))) =
                SearchGroupsAnswers sid (Next rd)
              /\ hasSucceeded rd = true /\ payload rd = Some groups
              /\ page groups = []
              /\ value = buildPaginatedList (pageInfo groups) [])).
Proof.
  apply (busy_lowered_only_by_publishing
           (SearchGroupsAnswers 0 (Next (succeeded (samplePage [])))) (ngOnInit initial));
    vm_compute; reflexivity.
Defined.

(** X11: the tombstoned ids are read when a page arrives, not when its
    lookups answer. An answer to a deletion that comes in between does not
    change what that page publishes: the view, the pageInfo and the busy
    flag after the lookups' answer are the same with and without it, so the
    row of a group deleted in between is still published with that page. *)
Theorem deletion_leaves_pending_page (st : State) (sid : nat) (w : Lookups)
    (did : nat) (n : Notification (RemoteData unit)) :
  groupsDto (onLookups sid w (onDelete did n st)) = groupsDto (onLookups sid w st)
  /\ pageInfoState (onLookups sid w (onDelete did n st)) =
       pageInfoState (onLookups sid w st)
  /\ searching (onLookups sid w (onDelete did n st)) = searching (onLookups sid w st).
Proof.
  destruct (onDelete_frame did n st) as (_ & Hg & Hp & Hs & _ & _ & _ & Hsubs & _).
  unfold onLookups. rewrite Hsubs.
  destruct (subscriptions st !! sid) as [sub|]; [|auto].
  destruct (closed sub); [auto|].
  destruct (inner sub) as [[deleted groups]|]; [|auto].
  destruct (settle _); simpl; auto.
Qed.

(** ** Row lookups *)

(** X12: what [hasLinkedDSO] delivers, whatever the lookup does: the first
    succeeded response decides (true exactly when it has a payload), an
    error before it counts as "no linked object", and without either
    nothing is delivered. It never ends in an error. *)
Theorem hasLinkedDSO_outcome (w : Lookups) (g : Group) :
  settle (hasLinkedDSO w g) =
    match settle (getFirstSucceededRemoteData (findByHref w (object_href (_links g)))) with
    | Emits rd => Emits (hasValue (payload rd))
    | Silent => Silent
    | Fails => Emits false
    end
  /\ settle (hasLinkedDSO w g) <> Fails.
Proof.
  unfold hasLinkedDSO.
  destruct (getFirstSucceededRemoteData _) as [|[rd| |] o]; simpl;
    split; try reflexivity; discriminate.
Qed.

Lemma settle_enrich_inv (w : Lookups) (g : Group) (row : GroupDtoModel) :
  settle (enrich w g) = Emits row ->
  exists a l sg mem,
    latest (isAuthorized w CanDelete (Some (self g))) = Emits a
    /\ latest (hasLinkedDSO w g) = Emits l
    /\ latest (getSubgroups w g) = Emits sg
    /\ latest (getMembers w g) = Emits mem
    /\ row = rowOf g a l sg mem.
Proof.
  unfold enrich. rewrite settle_map. simpl hasValue. cbv iota.
  unfold observableCombineLatest4.
  destruct (latest (isAuthorized w _ _)) as [a| |], (latest (hasLinkedDSO w g)) as [l| |],
    (latest (getSubgroups w g)) as [sg| |], (latest (getMembers w g)) as [mem| |];
    simpl; intros H; try discriminate.
  injection H as <-. exists a, l, sg, mem. repeat split.
Qed.

Lemma joinLatest_rows_inv (w : Lookups) (D : list string) (pg : list Group)
    (info : PageInfo) (rows : list GroupDtoModel) :
  joinLatest (rowStreams w D (buildPaginatedList info pg)) = Emits rows ->
  List.map group rows = pg
  /\ (forall g, In g pg -> includes D (id g) = false)
  /\ (forall row, In row rows -> settle (enrich w (group row)) = Emits row).
Proof.
  unfold rowStreams. simpl. revert rows.
  induction pg as [|h t IH]; simpl; intros rows H.
  - injection H as <-. repeat split; intros ? [].
  - destruct (includes D (id h)) eqn:Hh; simpl in H; [discriminate|].
    rewrite latest_enrich in H.
    destruct (settle (enrich w h)) as [row| |] eqn:Hrow;
      [|destruct (joinLatest _); discriminate|discriminate].
    destruct (joinLatest _) as [l| |]; try discriminate.
    injection H as <-. destruct (IH l eq_refl) as (Hm & Hd & Hr).
    destruct (settle_enrich_inv w h row Hrow) as (a & b & sg & mem & _ & _ & _ & _ & ->).
    simpl. repeat split.
    + f_equal. exact Hm.
    + intros g [<-|Hg]; auto.
    + intros r [<-|Hr']; auto.
Qed.

(** X13: the page assembly delivers whole pages only. Whenever it delivers
    a value, the value has the pageInfo of the page and one row per group,
    in the order of the page; no group of the page is tombstoned; and every
    row is able to delete exactly when the latest answer of its
    authorization lookup is yes and its linked-object check said no. *)
Theorem assemble_delivers_whole_pages (w : Lookups) (D : list string)
    (groups : PaginatedList Group) (value : PaginatedList GroupDtoModel) :
  settle (assemble w D groups) = Emits value ->
  pageInfo value = pageInfo groups
  /\ List.map group (page value) = page groups
  /\ (forall g, In g (page groups) -> includes D (id g) = false)
  /\ (forall row, In row (page value) ->
        exists a l,
          latest (isAuthorized w CanDelete (Some (self (group row)))) = Emits a
          /\ latest (hasLinkedDSO w (group row)) = Emits l
          /\ settle (hasLinkedDSO w (group row)) = Emits l
          /\ ableToDelete row = a && negb l).
Proof.
  destruct groups as [info pg]. unfold assemble. simpl page. simpl pageInfo.
  destruct pg as [|h t].
  - simpl. intros H. injection H as <-. simpl. repeat split; intros ? [].
  - simpl Nat.eqb. cbv iota. rewrite settle_map. unfold observableCombineLatest.
    destruct (rowStreams w D (buildPaginatedList info (h :: t))) as [|x xs] eqn:Hr;
      [discriminate|].
    rewrite settle_deliver, <- Hr.
    destruct (joinLatest _) as [rows| |] eqn:Hj; try discriminate.
    intros H. injection H as <-. simpl.
    destruct (joinLatest_rows_inv w D (h :: t) info rows Hj) as (Hm & Hd & Hrows).
    repeat split; try assumption.
    intros row Hin.
    destruct (settle_enrich_inv w (group row) row (Hrows row Hin))
      as (a & l & sg & mem & Ha & Hl & _ & _ & ->).
    exists a, l. repeat split; try assumption.
    rewrite <- latest_hasLinkedDSO. exact Hl.
Qed.

Lemma assemble_delivers_whole_pages_witness :
  pageInfo (buildPaginatedList (samplePageInfo 2) [sampleRow "A" true; sampleRow "B" true]) =
    pageInfo (samplePage ["A"; "B"])
  /\ List.map group
       (page (buildPaginatedList (samplePageInfo 2)
                [sampleRow "A" true; sampleRow "B" true])) =
     page (samplePage ["A"; "B"])
  /\ (forall g, In g (page (samplePage ["A"; "B"])) -> includes ["C"] (id g) = false)
  /\ (forall row,
        In row (page (buildPaginatedList (samplePageInfo 2)
                        [sampleRow "A" true; sampleRow "B" true])) ->
        exists a l,
          latest (isAuthorized grantingLookups CanDelete (Some (self (group row)))) = Emits a
          /\ latest (hasLinkedDSO grantingLookups (group row)) = Emits l
          /\ settle (hasLinkedDSO grantingLookups (group row)) = Emits l
          /\ ableToDelete row = a && negb l).
Proof.
  apply (assemble_delivers_whole_pages grantingLookups ["C"] (samplePage ["A"; "B"])).
  reflexivity.
Defined.

Lemma settle_enrich_fails (w : Lookups) (g : Group) :
  settle (isAuthorized w CanDelete (Some (self g))) = Fails
  \/ settle (getSubgroups w g) = Fails
  \/ settle (getMembers w g) = Fails ->
  settle (enrich w g) = Fails.
Proof.
  intros H. unfold enrich. rewrite settle_map. simpl hasValue. cbv iota.
  unfold observableCombineLatest4.
  destruct H as [H|[H|H]]; apply settle_fails_latest in H; rewrite H;
    destruct (latest (isAuthorized w _ _)), (latest (hasLinkedDSO w g)),
      (latest (getSubgroups w g)), (latest (getMembers w g));
    try discriminate; reflexivity.
Qed.

Lemma joinLatest_row_fails (w : Lookups) (D : list string) (pg : list Group)
    (info : PageInfo) (g : Group) :
  (forall g', In g' pg -> includes D (id g') = false) ->
  In g pg -> settle (enrich w g) = Fails ->
  joinLatest (rowStreams w D (buildPaginatedList info pg)) = Fails.
Proof.
  unfold rowStreams. simpl. intros Hlive Hin Hg.
  induction pg as [|h t IH]; simpl; [contradiction|].
  rewrite (Hlive h) by (now left). simpl. rewrite latest_enrich.
  destruct Hin as [->|Hin].
  - rewrite Hg. reflexivity.
  - rewrite IH; [|intros g' Hg'; apply Hlive; now right|assumption].
    destruct (settle (enrich w h)); reflexivity.
Qed.

(** X14: an error of the authorization, subgroup or member lookup of one
    row fails the whole page: the assembly ends in an error, nothing is
    published for the rows that did resolve, the busy flag is left as it
    was, the subscription is closed, and the error is not surfaced as a
    notification but ends up uncaught. *)
Theorem lookup_error_fails_page (w : Lookups) (st : State) (sid : nat) (sub : Subscription)
    (D : list string) (groups : PaginatedList Group) (g : Group) :
  (forall g', In g' (page groups) -> includes D (id g') = false) ->
  In g (page groups) ->
  settle (isAuthorized w CanDelete (Some (self g))) = Fails
  \/ settle (getSubgroups w g) = Fails
  \/ settle (getMembers w g) = Fails ->
  subscriptions st !! sid = Some sub ->
  closed sub = false ->
  inner sub = Some (D, groups) ->
  let st' := onLookups sid w st in
  settle (assemble w D groups) = Fails
  /\ groupsDto st' = groupsDto st
  /\ pageInfoState st' = pageInfoState st
  /\ searching st' = searching st
  /\ calls st' = calls st ++ [UncaughtError]
  /\ subscriptions st' !! sid = Some (close sub).
Proof.
  intros Hlive Hin Herr Hsub Hc Hi st'.
  assert (Hfail : settle (assemble w D groups) = Fails).
  { destruct groups as [info pg]. unfold assemble. simpl page in *. simpl pageInfo.
    destruct pg as [|h t]; [contradiction|]. simpl Nat.eqb. cbv iota.
    rewrite settle_map. unfold observableCombineLatest.
    destruct (rowStreams w D (buildPaginatedList info (h :: t))) as [|x xs] eqn:Hr;
      [discriminate|].
    rewrite settle_deliver, <- Hr.
    rewrite (joinLatest_row_fails w D (h :: t) info g Hlive Hin
               (settle_enrich_fails w g Herr)).
    reflexivity. }
  split; [exact Hfail|].
  unfold st', onLookups. rewrite Hsub, Hc, Hi, Hfail. simpl.
  repeat split. rewrite list_lookup_alter_eq, Hsub. reflexivity.
Qed.

Lemma lookup_error_fails_page_witness :
  let st := run [NgOnInit; SearchGroupsAnswers 0 (Next (sampleGateway ("", 1, 5)))] initial in
  let st' := onLookups 0 brokenMembersLookups st in
  settle (assemble brokenMembersLookups [] (samplePage ["A"; "B"])) = Fails
  /\ groupsDto st' = groupsDto st
  /\ pageInfoState st' = pageInfoState st
  /\ searching st' = searching st
  /\ calls st' = calls st ++ [UncaughtError]
  /\ subscriptions st' !! 0 =
       Some (close {| closed := false; request := ("", 1, 5);
                      inner := Some ([], samplePage ["A"; "B"]) |}).
Proof.
  apply (lookup_error_fails_page brokenMembersLookups
           (run [NgOnInit; SearchGroupsAnswers 0 (Next (sampleGateway ("", 1, 5)))] initial)
           0 {| closed := false; request := ("", 1, 5);
                inner := Some ([], samplePage ["A"; "B"]) |}
           [] (samplePage ["A"; "B"]) (sampleGroup "A")).
  - intros g' _. destruct (id g'); reflexivity.
  - left. reflexivity.
  - right. right. reflexivity.
  - reflexivity.
  - reflexivity.
  - reflexivity.
Defined.

(** ** Arrival of a page *)

Lemma length_assembleCalls (D : list string) (groups : PaginatedList Group) :
  List.length (assembleCalls D groups) =
    4 * List.length (List.filter (fun g => negb (includes D (id g))) (page groups)).
Proof.
  unfold assembleCalls. destruct (page groups) as [|h t]; [reflexivity|].
  simpl Nat.eqb. cbv iota. generalize (h :: t) as pg. clear.
  induction pg as [|g pg IH]; [reflexivity|]. simpl.
  rewrite length_app, IH. destruct (negb (includes D (id g))); simpl; lia.
Qed.

(** X15: when a succeeded page arrives on the open subscription, the
    component issues the four lookups of every group that is not
    tombstoned, in page order, and none for a tombstoned group. For a page
    that is not empty it records the page with the tombstoned ids as they
    are now, and publishes nothing yet: view and busy flag wait for the
    lookups. An empty page issues no lookup, leaves nothing to assemble,
    and is published at once, with the busy flag lowered. *)
Theorem page_arrival_issues_row_lookups (st : State) (sid : nat) (sub : Subscription)
    (rd : RemoteData (PaginatedList Group)) (groups : PaginatedList Group) :
  subscriptions st !! sid = Some sub -> closed sub = false ->
  hasSucceeded rd = true -> payload rd = Some groups ->
  let st' := onSearchGroups sid (Next rd) st in
  calls st' = calls st ++ assembleCalls (deletedGroupsIds st) groups
  /\ List.length (assembleCalls (deletedGroupsIds st) groups) =
       4 * List.length
             (List.filter (fun g => negb (includes (deletedGroupsIds st) (id g)))
                (page groups))
  /\ (forall c, In c (assembleCalls (deletedGroupsIds st) groups) ->
        exists g, In g (page groups)
                  /\ includes (deletedGroupsIds st) (id g) = false
                  /\ In c (rowCalls g))
  /\ (page groups <> [] ->
        subscriptions st' !! sid =
          Some {| closed := false; request := request sub;
                  inner := Some (deletedGroupsIds st, groups) |}
        /\ groupsDto st' = groupsDto st
        /\ pageInfoState st' = pageInfoState st
        /\ searching st' = searching st)
  /\ (page groups = [] ->
        subscriptions st' !! sid =
          Some {| closed := false; request := request sub; inner := None |}
        /\ calls st' = calls st
        /\ published (buildPaginatedList (pageInfo groups) []) st').
Proof.
  intros Hsub Hc Hs Hp st'.
  pose proof (settle_succeeded rd groups Hs Hp) as Hn.
  assert (Hlt : sid < List.length (subscriptions st)) by (eapply lookup_lt_Some; eauto).
  assert (Hcalls : calls st' = calls st ++ assembleCalls (deletedGroupsIds st) groups).
  { unfold st'. destruct (page groups) as [|h t] eqn:Hpg.
    - rewrite (onSearchGroups_empty_page st sid sub _ groups Hsub Hc Hn Hpg).
      unfold assembleCalls. rewrite Hpg. simpl. symmetry. apply app_nil_r.
    - rewrite (onSearchGroups_arrival st sid sub _ groups Hsub Hc Hn)
        by (rewrite Hpg; discriminate).
      rewrite callAll_calls. reflexivity. }
  split; [exact Hcalls|]. split; [apply length_assembleCalls|].
  split; [|split].
  - intros c Hin. unfold assembleCalls in Hin.
    destruct (Nat.eqb _ 0); [contradiction|].
    apply in_flat_map in Hin as (g & Hg & Hc').
    destruct (includes (deletedGroupsIds st) (id g)) eqn:Hi; simpl in Hc'; [contradiction|].
    exists g. auto.
  - intros Hpg. unfold st'.
    rewrite (onSearchGroups_arrival st sid sub _ groups Hsub Hc Hn Hpg), callAll_calls.
    simpl. split; [|repeat split]. apply list_lookup_insert_eq, Hlt.
  - intros Hpg. rewrite Hcalls. unfold st', assembleCalls.
    rewrite (onSearchGroups_empty_page st sid sub _ groups Hsub Hc Hn Hpg), Hpg.
    simpl. split; [|split; [apply app_nil_r|repeat split]].
    apply list_lookup_insert_eq, Hlt.
Qed.

Lemma page_arrival_issues_row_lookups_witness :
  let st := run [NgOnInit; DeleteGroup (sampleRow "A" true);
                 DeleteAnswers 0 (Next (succeeded tt))] initial in
  let groups := samplePage ["A"; "B"] in
  let st' := onSearchGroups 0 (Next (succeeded groups)) st in
  calls st' = calls st ++ assembleCalls (deletedGroupsIds st) groups
  /\ List.length (assembleCalls (deletedGroupsIds st) groups) =
       4 * List.length
             (List.filter (fun g => negb (includes (deletedGroupsIds st) (id g)))
                (page groups))
  /\ (forall c, In c (assembleCalls (deletedGroupsIds st) groups) ->
        exists g, In g (page groups)
                  /\ includes (deletedGroupsIds st) (id g) = false
                  /\ In c (rowCalls g))
  /\ (page groups <> [] ->
        subscriptions st' !! 0 =
          Some {| closed := false;
                  request := request {| closed := false; request := ("", 1, 5);
                                        inner := None |};
                  inner := Some (deletedGroupsIds st, groups) |}
        /\ groupsDto st' = groupsDto st
        /\ pageInfoState st' = pageInfoState st
        /\ searching st' = searching st)
  /\ (page groups = [] ->
        subscriptions st' !! 0 =
          Some {| closed := false;
                  request := request {| closed := false; request := ("", 1, 5);
                                        inner := None |};
                  inner := None |}
        /\ calls st' = calls st
        /\ published (buildPaginatedList (pageInfo groups) []) st').
Proof.
  apply (page_arrival_issues_row_lookups
           (run [NgOnInit; DeleteGroup (sampleRow "A" true);
                 DeleteAnswers 0 (Next (succeeded tt))] initial) 0
           {| closed := false; request := ("", 1, 5); inner := None |}
           (succeeded (samplePage ["A"; "B"])) (samplePage ["A"; "B"])); reflexivity.
Defined.

(** X16: a newer response on the same open subscription replaces the page
    being assembled: the lookups' answer then publishes the page of the
    newer response, not the earlier one. This is how the list refreshes
    after the cache is set stale. *)
Theorem newer_response_replaces_page (w : Lookups) (st : State) (sid : nat)
    (sub : Subscription) (rd1 rd2 : RemoteData (PaginatedList Group))
    (groups1 groups2 : PaginatedList Group) (value : PaginatedList GroupDtoModel) :
  subscriptions st !! sid = Some sub -> closed sub = false ->
  hasSucceeded rd1 = true -> payload rd1 = Some groups1 ->
  hasSucceeded rd2 = true -> payload rd2 = Some groups2 ->
  settle (assemble w (deletedGroupsIds st) groups2) = Emits value ->
  published value
    (onLookups sid w
       (onSearchGroups sid (Next rd2) (onSearchGroups sid (Next rd1) st))).
Proof.
  intros Hsub Hc Hs1 Hp1 Hs2 Hp2 Hval.
  assert (Hlt : sid < List.length (subscriptions st)) by (eapply lookup_lt_Some; eauto).
  pose proof (settle_succeeded rd1 groups1 Hs1 Hp1) as Hn1.
  pose proof (settle_succeeded rd2 groups2 Hs2 Hp2) as Hn2.
  set (st1 := onSearchGroups sid (Next rd1) st).
  assert (H1 : exists sub1,
            subscriptions st1 !! sid = Some sub1 /\ closed sub1 = false
            /\ deletedGroupsIds st1 = deletedGroupsIds st).
  { unfold st1. destruct (page groups1) as [|h t] eqn:Hpg.
    - rewrite (onSearchGroups_empty_page st sid sub _ groups1 Hsub Hc Hn1 Hpg).
      eexists. split; [apply list_lookup_insert_eq, Hlt|]. split; reflexivity.
    - rewrite (onSearchGroups_arrival st sid sub _ groups1 Hsub Hc Hn1)
        by (rewrite Hpg; discriminate).
      rewrite callAll_calls.
      eexists. split; [apply list_lookup_insert_eq, Hlt|]. split; reflexivity. }
  destruct H1 as (sub1 & Hsub1 & Hc1 & Hd1). clearbody st1.
  assert (Hlt1 : sid < List.length (subscriptions st1))
    by (eapply lookup_lt_Some; eauto).
  destruct (page groups2) as [|h t] eqn:Hpg.
  - assert (value = buildPaginatedList (pageInfo groups2) []) as ->.
    { unfold assemble in Hval. rewrite Hpg in Hval. simpl in Hval. congruence. }
    rewrite (onSearchGroups_empty_page st1 sid sub1 _ groups2 Hsub1 Hc1 Hn2 Hpg).
    unfold onLookups. simpl.
    rewrite (list_lookup_insert_eq _ _ _ Hlt1). simpl. repeat split.
  - rewrite (onSearchGroups_arrival st1 sid sub1 _ groups2 Hsub1 Hc1 Hn2)
      by (rewrite Hpg; discriminate).
    rewrite callAll_calls. unfold onLookups. simpl.
    rewrite (list_lookup_insert_eq _ _ _ Hlt1). simpl. rewrite Hd1, Hval.
    repeat split.
Qed.

Lemma newer_response_replaces_page_witness :
  published (buildPaginatedList (samplePageInfo 1) [sampleRow "B" false])
    (onLookups 0 sampleLookups
       (onSearchGroups 0 (Next (succeeded (samplePage ["B"])))
          (onSearchGroups 0 (Next (succeeded (samplePage ["A"; "B"]))) (ngOnInit initial)))).
Proof.
  apply (newer_response_replaces_page sampleLookups (ngOnInit initial) 0
           {| closed := false; request := ("", 1, 5); inner := None |}
           (succeeded (samplePage ["A"; "B"])) (succeeded (samplePage ["B"]))
           (samplePage ["A"; "B"]) (samplePage ["B"])); reflexivity.
Defined.

(** ** Page changes and clearing *)

Lemma search_same_query (st : State) :
  let st' := search (Some (currentSearchQuery st)) st in
  currentSearchQuery st' = currentSearchQuery st
  /\ currentPage (config st') = currentPage (config st)
  /\ calls st' = calls st ++
       [SearchGroups (trim (currentSearchQuery st)) (currentPage (config st))
          (pageSize (config st))].
Proof.
  intros st'.
  destruct (search_frame (Some (currentSearchQuery st)) st)
    as (_ & _ & _ & _ & _ & _ & Hsize & _).
  destruct (search_query (Some (currentSearchQuery st)) st) as (Hq & Hp & Hc).
  fold st' in Hsize, Hq, Hp, Hc. clearbody st'.
  rewrite String.eqb_refl in Hq, Hp, Hc. simpl in Hq, Hp, Hc.
  rewrite Hq, Hp, Hsize in Hc. auto.
Qed.

(** X17: a page change sets the page to the one asked for and fetches it
    for the stored query: the query is kept, nothing is navigated, and the
    page is not reset to 1; the view is kept until the new page is
    published, with the busy flag raised. *)
Theorem page_change_keeps_query (event : nat) (st : State) :
  let st' := onPageChange event st in
  currentPage (config st') = event
  /\ currentSearchQuery st' = currentSearchQuery st
  /\ calls st' = calls st ++
       [SearchGroups (trim (currentSearchQuery st)) event (pageSize (config st))]
  /\ searching st' = true
  /\ groupsDto st' = groupsDto st
  /\ pageInfoState st' = pageInfoState st
  /\ deletedGroupsIds st' = deletedGroupsIds st.
Proof.
  intros st'. unfold st', onPageChange.
  destruct (search_same_query (set_currentPage event st)) as (Hq & Hp & Hc).
  destruct (search_frame (Some (currentSearchQuery (set_currentPage event st)))
              (set_currentPage event st)) as (Hb & Hg & Hpi & Hd & _).
  repeat split; assumption.
Qed.

(** X18: clearing searches for the empty query. When the query was empty
    already, clearing keeps the page and does not navigate; so clearing
    twice leaves query, page and view as clearing once does, and only
    patches the form and fetches the same page again. *)
Theorem clear_twice (st : State) :
  let st1 := clearFormAndResetResult st in
  let st2 := clearFormAndResetResult st1 in
  currentSearchQuery st1 = ""
  /\ currentPage (config st1) =
       (if String.eqb (currentSearchQuery st) "" then currentPage (config st) else 1)
  /\ currentSearchQuery st2 = currentSearchQuery st1
  /\ currentPage (config st2) = currentPage (config st1)
  /\ groupsDto st2 = groupsDto st
  /\ pageInfoState st2 = pageInfoState st
  /\ calls st2 = calls st1 ++
       [PatchSearchForm "";
        SearchGroups "" (currentPage (config st1)) (pageSize (config st1))].
Proof.
  intros st1 st2.
  destruct (search_query (Some "") (call (PatchSearchForm "") st)) as (Hq1 & Hp1 & _).
  destruct (search_frame (Some "") (call (PatchSearchForm "") st)) as (_ & Hg1 & Hpi1 & _).
  change (search (Some "") (call (PatchSearchForm "") st)) with st1 in Hq1, Hp1, Hg1, Hpi1.
  clearbody st1.
  change (currentSearchQuery (call (PatchSearchForm "") st))
    with (currentSearchQuery st) in Hq1, Hp1.
  change (config (call (PatchSearchForm "") st)) with (config st) in Hp1.
  change (groupsDto (call (PatchSearchForm "") st)) with (groupsDto st) in Hg1.
  change (pageInfoState (call (PatchSearchForm "") st)) with (pageInfoState st) in Hpi1.
  assert (Hq1' : currentSearchQuery st1 = "").
  { rewrite Hq1. destruct (String.eqb_spec (currentSearchQuery st) ""); simpl; auto. }
  assert (Hp1' : currentPage (config st1) =
                   (if String.eqb (currentSearchQuery st) "" then currentPage (config st)
                    else 1)).
  { rewrite Hp1. destruct (String.eqb (currentSearchQuery st) ""); reflexivity. }
  clear Hq1 Hp1.
  destruct (search_same_query (call (PatchSearchForm "") st1)) as (Hq2 & Hp2 & Hc2).
  destruct (search_frame (Some (currentSearchQuery (call (PatchSearchForm "") st1)))
              (call (PatchSearchForm "") st1)) as (_ & Hg2 & Hpi2 & _).
  change (currentSearchQuery (call (PatchSearchForm "") st1))
    with (currentSearchQuery st1) in Hq2, Hp2, Hc2, Hg2, Hpi2.
  rewrite Hq1' in Hq2, Hp2, Hc2, Hg2, Hpi2.
  change (search (Some "") (call (PatchSearchForm "") st1)) with st2 in Hq2, Hp2, Hc2, Hg2, Hpi2.
  clearbody st2.
  change (config (call (PatchSearchForm "") st1)) with (config st1) in Hp2, Hc2.
  change (calls (call (PatchSearchForm "") st1))
    with (calls st1 ++ [PatchSearchForm ""]) in Hc2.
  change (groupsDto (call (PatchSearchForm "") st1)) with (groupsDto st1) in Hg2.
  change (pageInfoState (call (PatchSearchForm "") st1)) with (pageInfoState st1) in Hpi2.
  change (trim "") with "" in Hc2.
  rewrite <- app_assoc in Hc2.
  rewrite Hq1', Hq2, Hp2, Hg2, Hpi2, Hg1, Hpi1, Hc2.
  repeat split. exact Hp1'.
Qed.

(** ** Subscriptions over time *)

Lemma kept_alter_close (old : nat) (l : list Subscription) (sid : nat) (sub : Subscription) :
  l !! sid = Some sub ->
  exists sub',
    alter close old l !! sid = Some sub'
    /\ request sub' = request sub
    /\ (closed sub = true -> closed sub' = true).
Proof.
  intros Hl. destruct (decide (old = sid)) as [->|Hne].
  - rewrite list_lookup_alter_eq, Hl. simpl. eauto.
  - rewrite list_lookup_alter_ne by assumption. eauto.
Qed.

Lemma kept_unsubscribe_all (l : list nat) (st : State) (sid : nat) (sub : Subscription) :
  subscriptions st !! sid = Some sub ->
  exists sub',
    subscriptions (fold_left (fun s j => unsubscribe j s) l st) !! sid = Some sub'
    /\ request sub' = request sub
    /\ (closed sub = true -> closed sub' = true).
Proof.
  revert st sub. induction l as [|j l IH]; intros st sub Hl; simpl; [eauto|].
  destruct (kept_alter_close j _ _ _ Hl) as (sub1 & Hl1 & Hr1 & Hc1).
  destruct (IH (unsubscribe j st) sub1 Hl1) as (sub2 & Hl2 & Hr2 & Hc2).
  exists sub2. split; [assumption|]. split; [congruence|auto].
Qed.

(** No event removes a subscription object, changes what it was
    subscribed for, or reopens it. *)
Lemma step_subscription (e : Event) (st : State) (sid : nat) (sub : Subscription) :
  subscriptions st !! sid = Some sub ->
  exists sub',
    subscriptions (step e st) !! sid = Some sub'
    /\ request sub' = request sub
    /\ (closed sub = true -> closed sub' = true).
Proof.
  intros Hl.
  destruct e;
    try (match goal with
         | |- context [step ?e st] =>
             destruct (submission_search e st I) as (q0 & pre & -> & Hsubs & _)
         end;
         destruct (search_frame q0 pre) as (_ & _ & _ & _ & _ & _ & _ & _ & ->);
         rewrite Hsubs;
         destruct (searchSub pre) as [old|];
         [destruct (kept_alter_close old _ _ _ Hl) as (sub' & Hl' & Hr & Hc);
          exists sub'; split; [apply lookup_app_l_Some, Hl'|auto]
         |exists sub; split; [apply lookup_app_l_Some, Hl|auto]]);
    cbn [step].
  - unfold deleteGroup. destruct (id (group dto)); eauto.
  - unfold ngOnDestroy, cleanupSubscribes. apply kept_unsubscribe_all, Hl.
  - destruct (onSearchGroups_shape sid0 n st)
      as [->|[->|[->|(sub0 & groups & Hl0 & Hc0 & _ & [[_ ->]|[_ ->]])]]];
      eauto; try (apply (kept_alter_close sid0 _ _ _ Hl));
      try rewrite callAll_calls; simpl;
      (destruct (decide (sid0 = sid)) as [->|Hne];
       [rewrite list_lookup_insert_eq by (eapply lookup_lt_Some; eassumption);
        assert (sub0 = sub) as -> by congruence;
        eexists; split; [reflexivity|]; split; [reflexivity|]; congruence
       |rewrite list_lookup_insert_ne by assumption; eauto]).
  - unfold onLookups.
    destruct (subscriptions st !! sid0) as [sub0|]; [|eauto].
    destruct (closed sub0); [eauto|].
    destruct (inner sub0) as [[deleted groups]|]; [|eauto].
    destruct (settle _); eauto. apply (kept_alter_close sid0 _ _ _ Hl).
  - destruct (onDelete_frame did n st) as (_ & _ & _ & _ & _ & _ & _ & -> & _). eauto.
  - destruct (onBrowseEndpoint_frame rid n st) as (_ & _ & _ & _ & _ & _ & _ & _ & -> & _).
    eauto.
Qed.

(** X19: a search subscription that is closed stays closed, whatever
    happens afterwards: it is never reopened or replaced, and no response
    or lookup answer for it is accepted any more. *)
Theorem closed_subscription_stays_closed (es : list Event) (st : State) (sid : nat)
    (sub : Subscription) (n : Notification (RemoteData (PaginatedList Group)))
    (w : Lookups) :
  subscriptions st !! sid = Some sub ->
  closed sub = true ->
  (exists sub',
     subscriptions (run es st) !! sid = Some sub'
     /\ closed sub' = true
     /\ request sub' = request sub)
  /\ onSearchGroups sid n (run es st) = run es st
  /\ onLookups sid w (run es st) = run es st.
Proof.
  intros Hl Hc.
  assert (H : exists sub', subscriptions (run es st) !! sid = Some sub'
                           /\ closed sub' = true /\ request sub' = request sub).
  { revert st sub Hl Hc. induction es as [|e es IH]; intros st sub Hl Hc; simpl; [eauto|].
    destruct (step_subscription e st sid sub Hl) as (sub1 & Hl1 & Hr1 & Hc1).
    destruct (IH (step e st) sub1 Hl1 (Hc1 Hc)) as (sub2 & Hl2 & Hc2 & Hr2).
    exists sub2. split; [exact Hl2|]. split; [assumption|congruence]. }
  split; [exact H|]. destruct H as (sub' & Hl' & Hc' & _).
  unfold onSearchGroups, onLookups. rewrite Hl', Hc'. auto.
Qed.

Lemma closed_subscription_stays_closed_witness :
  let st := run [NgOnInit; SubmitSearch (Some "alice")] initial in
  let es := [SearchGroupsAnswers 0 (Next (sampleGateway ("", 1, 5)));
             OnPageChange 2; NgOnDestroy; SubmitSearch (Some "")] in
  (exists sub',
     subscriptions (run es st) !! 0 = Some sub'
     /\ closed sub' = true
     /\ request sub' = request {| closed := true; request := ("", 1, 5); inner := None |})
  /\ onSearchGroups 0 (Next (sampleGateway ("", 1, 5))) (run es st) = run es st
  /\ onLookups 0 sampleLookups (run es st) = run es st.
Proof.
  apply (closed_subscription_stays_closed
           [SearchGroupsAnswers 0 (Next (sampleGateway ("", 1, 5)));
            OnPageChange 2; NgOnDestroy; SubmitSearch (Some "")]
           (run [NgOnInit; SubmitSearch (Some "alice")] initial) 0
           {| closed := true; request := ("", 1, 5); inner := None |});
    reflexivity.
Defined.

Lemma step_search_frame (e : Event) (st : State) :
  match e with
  | NgOnInit | OnPageChange _ | SubmitSearch _ | ClearFormAndResetResult => True
  | _ => config (step e st) = config st
         /\ currentSearchQuery (step e st) = currentSearchQuery st
         /\ searchSub (step e st) = searchSub st
  end.
Proof.
  destruct e; try exact I; cbn [step].
  - unfold deleteGroup. destruct (id (group dto)); auto.
  - unfold ngOnDestroy, cleanupSubscribes.
    destruct (unsubscribe_all_frame (subs st) st) as (-> & _ & _ & _ & _ & -> & -> & _).
    auto.
  - destruct (onSearchGroups_frame sid n st) as (-> & _ & -> & -> & _). auto.
  - destruct (onLookups_frame sid w st) as (-> & _ & -> & -> & _). auto.
  - destruct (onDelete_frame did n st) as (-> & _ & _ & _ & -> & -> & _). auto.
  - destruct (onBrowseEndpoint_frame rid n st) as (-> & _ & _ & _ & _ & -> & -> & _). auto.
Qed.

Lemma request_step (e : Event) (st : State) :
  (forall sid, searchSub st = Some sid ->
     exists sub, subscriptions st !! sid = Some sub
                 /\ request sub = (trim (currentSearchQuery st), currentPage (config st),
                                   pageSize (config st))) ->
  forall sid, searchSub (step e st) = Some sid ->
    exists sub, subscriptions (step e st) !! sid = Some sub
                /\ request sub = (trim (currentSearchQuery (step e st)),
                                  currentPage (config (step e st)),
                                  pageSize (config (step e st))).
Proof.
  intros HR sid. pose proof (step_search_frame e st) as Hf.
  destruct e;
    try (destruct Hf as (Hcfg & Hq & Hs); rewrite Hcfg, Hq, Hs; intros Hsid;
         destruct (HR sid Hsid) as (sub & Hl & Hr);
         match goal with
         | |- context [step ?e st] =>
             destruct (step_subscription e st sid sub Hl) as (sub' & Hl' & Hr' & _)
         end;
         exists sub'; split; [exact Hl'|congruence]);
    match goal with
    | |- context [step ?e st] =>
        destruct (submission_search e st I) as (q0 & pre & -> & _)
    end;
    destruct (search_frame q0 pre) as (_ & _ & _ & _ & _ & _ & _ & -> & _);
    intros Hsid; injection Hsid as <-; eexists;
    (split; [apply search_new_subscription|reflexivity]).
Qed.

(** X20: the search subscription the component holds was always made for
    the query and page it shows now: its request is the trimmed current
    query at the current page and page size. So a response on it, also one
    that comes after the cache was set stale, answers the current
    query/page pair. *)
Theorem search_subscription_carries_current_request (es : list Event) (sid : nat) :
  searchSub (run es initial) = Some sid ->
  exists sub,
    subscriptions (run es initial) !! sid = Some sub
    /\ request sub =
         (trim (currentSearchQuery (run es initial)),
          currentPage (config (run es initial)),
          pageSize (config (run es initial))).
Proof.
  revert sid.
  assert (H : forall es st,
            (forall sid, searchSub st = Some sid ->
               exists sub, subscriptions st !! sid = Some sub
                 /\ request sub = (trim (currentSearchQuery st), currentPage (config st),
                                   pageSize (config st))) ->
            forall sid, searchSub (run es st) = Some sid ->
              exists sub, subscriptions (run es st) !! sid = Some sub
                /\ request sub = (trim (currentSearchQuery (run es st)),
                                  currentPage (config (run es st)),
                                  pageSize (config (run es st)))).
  { clear. induction es as [|e es IH]; intros st HR; simpl; [exact HR|].
    apply IH, request_step, HR. }
  apply H. intros sid Hsid. discriminate.
Qed.

Lemma search_subscription_carries_current_request_witness :
  let st := run [NgOnInit; SubmitSearch (Some " alice "); OnPageChange 3;
                 DeleteGroup (sampleRow "A" true); DeleteAnswers 0 (Next (succeeded tt))]
              initial in
  exists sub,
    subscriptions st !! 2 = Some sub
    /\ request sub =
         (trim (currentSearchQuery st), currentPage (config st), pageSize (config st)).
Proof.
  apply (search_subscription_carries_current_request
           [NgOnInit; SubmitSearch (Some " alice "); OnPageChange 3;
            DeleteGroup (sampleRow "A" true); DeleteAnswers 0 (Next (succeeded tt))] 2).
  reflexivity.
Defined.
